(** * Pretty Drive: the folder/file tree of [main.py]

    A shallow embedding of the drive endpoints of [main.py] (list, create
    folder, upload, download, rename, delete, breadcrumbs) over a model of
    the two MongoDB collections ("folder", "fileitem") and of the upload
    directory, followed by the properties of the tree operations.

    Conventions of the embedding.
    - A collection is a finite map from [_id] to document ([gmap]): MongoDB
      keeps [_id] unique.  A cursor ([find]) is the list of the matching
      documents taken when the loop starts; MongoDB does not fix the order
      of that list, the model takes the order of [map_to_list].
    - A Python [str] is a [string], one character per code point below 256.
    - Handlers return an [outcome]: the value, the [HTTPException] raised, or
      an exception nobody catches (FastAPI answers 500).
    - The [while] loop of [get_breadcrumbs] and the recursion of
      [delete_folder_recursive] take a fuel argument; [None] means the fuel
      ran out before the Python code returned. *)

From Stdlib Require Import Ascii String.
From stdpp Require Import gmap strings list fin_maps sorting relations.

Local Open Scope string_scope.
Local Open Scope list_scope.

(** ** Python strings *)

Module Py.

(** [str.isspace] on one character, for code points below 256:
    TAB, LF, VT, FF, CR, FS, GS, RS, US, SPACE, NEL (0x85), NBSP (0xA0). *)
Definition isspace (a : ascii) : bool :=
  let n := nat_of_ascii a in
  (((9 <=? n) && (n <=? 13)) || ((28 <=? n) && (n <=? 32))
   || (n =? 133) || (n =? 160))%nat.

(** [s.lstrip()] *)
Fixpoint lstrip (s : string) : string :=
  match s with
  | EmptyString => EmptyString
  | String a s' => if isspace a then lstrip s' else s
  end.

(** [s.rstrip()] *)
Fixpoint rstrip (s : string) : string :=
  match s with
  | EmptyString => EmptyString
  | String a s' =>
      match rstrip s' with
      | EmptyString => if isspace a then EmptyString else String a EmptyString
      | r => String a r
      end
  end.

(** [s.strip()] *)
Definition strip (s : string) : string := rstrip (lstrip s).

(** Truth value of a string: [not s] holds for the empty string. *)
Definition truthy (s : string) : bool :=
  match s with EmptyString => false | _ => true end.

(** Truth value of an [Optional[str]]: [None] and [""] are falsy. *)
Definition truthy_opt (o : option string) : bool :=
  match o with Some s => truthy s | None => false end.

(** [x or None] for an [Optional[str]]. *)
Definition or_None (o : option string) : option string :=
  if truthy_opt o then o else None.

(** [s.startswith("/")] and [s.endswith("/")] *)
Definition starts_with_slash (s : string) : bool :=
  match s with String "/" _ => true | _ => false end.

Fixpoint ends_with_slash (s : string) : bool :=
  match s with
  | EmptyString => false
  | String a EmptyString => bool_decide (a = "/"%char)
  | String _ s' => ends_with_slash s'
  end.

(** [os.path.join(a, b)] (POSIX) *)
Definition os_path_join (a b : string) : string :=
  if starts_with_slash b then b
  else if negb (truthy a) || ends_with_slash a then (a ++ b)%string
  else (a ++ "/" ++ b)%string.

(** [s.rstrip("/")] *)
Fixpoint rstrip_slash (s : string) : string :=
  match s with
  | EmptyString => EmptyString
  | String a s' =>
      match rstrip_slash s' with
      | EmptyString => if bool_decide (a = "/"%char) then EmptyString
                       else String a EmptyString
      | r => String a r
      end
  end.

(** [p[:p.rfind("/") + 1]]: [p] up to and with its last slash. *)
Fixpoint upto_last_slash (p : string) : string :=
  match p with
  | EmptyString => EmptyString
  | String a p' =>
      match upto_last_slash p' with
      | EmptyString => if bool_decide (a = "/"%char) then String a EmptyString
                       else EmptyString
      | r => String a r
      end
  end.

(** [os.path.dirname(p)] (POSIX): a head made of slashes only is kept,
    any other head loses its trailing slashes. *)
Definition os_path_dirname (p : string) : string :=
  let head := upto_last_slash p in
  match rstrip_slash head with
  | EmptyString => head
  | r => r
  end.

End Py.

(** ** [bson.ObjectId] *)

Module Bson.

(** An [ObjectId] is twelve bytes; it is kept here by its [str], the 24
    lower-case hexadecimal digits. *)
Record ObjectId : Type := mkObjectId { hex : string }.

#[global] Instance ObjectId_eq_dec : EqDecision ObjectId.
Proof. solve_decision. Defined.

#[global] Instance ObjectId_countable : Countable ObjectId :=
  inj_countable' hex mkObjectId (fun o => match o with mkObjectId _ => eq_refl end).

(** [str(oid)] *)
Definition str (o : ObjectId) : string := hex o.

Definition is_hex_digit (a : ascii) : bool :=
  let n := nat_of_ascii a in
  (((48 <=? n) && (n <=? 57)) || ((65 <=? n) && (n <=? 70))
   || ((97 <=? n) && (n <=? 102)))%nat.

Definition lower (a : ascii) : ascii :=
  let n := nat_of_ascii a in
  if ((65 <=? n) && (n <=? 90))%nat then ascii_of_nat (n + 32) else a.

Fixpoint all_hex (s : string) : bool :=
  match s with
  | EmptyString => true
  | String a s' => is_hex_digit a && all_hex s'
  end.

Fixpoint lower_string (s : string) : string :=
  match s with
  | EmptyString => EmptyString
  | String a s' => String (lower a) (lower_string s')
  end.

(** [ObjectId(s)] for a [str] argument: [None] stands for [InvalidId]. *)
Definition parse (s : string) : option ObjectId :=
  if (String.length s =? 24)%nat && all_hex s
  then Some (mkObjectId (lower_string s))
  else None.

End Bson.

Export Bson (ObjectId, mkObjectId).

(** ** Documents, collections, the upload directory *)

Definition datetime := Z.

(** [dt.isoformat()]: the text is not computed, only tagged. *)
Inductive iso8601 : Type := isoformat (t : datetime).

#[global] Instance iso8601_eq_dec : EqDecision iso8601.
Proof. solve_decision. Defined.

(** A document of the "folder" collection, without its [_id] (the key). *)
Record Folder : Type := mkFolder {
  folder_name : string;
  folder_parent_id : option string;
  folder_created_at : datetime;
  folder_updated_at : datetime
}.

(** A document of the "fileitem" collection, without its [_id].  The
    handlers read [name], [mime_type] and [storage_path] with [dict.get],
    so the model lets these fields be missing. *)
Record FileItem : Type := mkFileItem {
  file_name : option string;
  file_parent_id : option string;
  file_size : nat;
  file_mime_type : option string;
  file_storage_path : option string;
  file_created_at : datetime;
  file_updated_at : datetime
}.

#[global] Instance Folder_eq_dec : EqDecision Folder.
Proof. solve_decision. Defined.

#[global] Instance FileItem_eq_dec : EqDecision FileItem.
Proof. solve_decision. Defined.

(** What [delete_one] did, in the order of the calls. *)
Inductive StoreEvent : Type :=
| DeletedFile (k : ObjectId)
| DeletedFolder (k : ObjectId).

#[global] Instance StoreEvent_eq_dec : EqDecision StoreEvent.
Proof. solve_decision. Defined.

(** The database handle [db]: the two collections, and the history of the
    deletions (a ghost field, no handler reads it). *)
Record Database : Type := mkDatabase {
  folder : gmap ObjectId Folder;
  fileitem : gmap ObjectId FileItem;
  history : list StoreEvent
}.

(** A file of the upload directory.  [os.remove] raises [OSError] on a
    file that may not be unlinked: [removable] says which. *)
Record Blob : Type := mkBlob {
  content : string;
  removable : bool
}.

Module Os.

(** [os.path.exists(p)] *)
Definition path_exists (fs : gmap string Blob) (p : string) : bool :=
  bool_decide (is_Some (fs !! p)).

(** [os.remove(p)]: [None] stands for the [OSError] raised. *)
Definition remove (fs : gmap string Blob) (p : string) : option (gmap string Blob) :=
  match fs !! p with
  | Some b => if removable b then Some (delete p fs) else None
  | None => None
  end.

(** [open(p, "wb")] then [write(data)]: creates or truncates the file.
    [open] raises [FileNotFoundError] ([None]) when the directory of [p]
    does not exist; the disk of the model has one directory, [dir], the
    upload directory that [main.py] creates when it is loaded. *)
Definition write (dir : string) (fs : gmap string Blob) (p : string) (data : string)
  : option (gmap string Blob) :=
  if bool_decide (Py.os_path_dirname p = dir)
  then Some (<[p := mkBlob data
                      (match fs !! p with Some b => removable b | None => true end)]> fs)
  else None.

(** [os.path.getsize(p)] of a file just written. *)
Definition getsize (fs : gmap string Blob) (p : string) : nat :=
  match fs !! p with Some b => String.length (content b) | None => 0 end.

End Os.

(** ** Results of a handler *)

Inductive outcome (A : Type) : Type :=
| Ok (a : A)
| HTTPException (status_code : nat) (detail : string)
| Uncaught (exception : string).

Arguments Ok {A} a.
Arguments HTTPException {A} status_code detail.
Arguments Uncaught {A} exception.


(** ** Helpers of [main.py] *)

(** [oid(id_str)] *)
Definition oid (id_str : option string) : outcome (option ObjectId) :=
  if negb (Py.truthy_opt id_str) then Ok None
  else match id_str with
       | Some s =>
           match Bson.parse s with
           | Some o => Ok (Some o)
           | None => HTTPException 400 "Invalid id"
           end
       | None => Ok None
       end.

(** Serialized documents: [_id] as [str], datetimes as ISO-8601 text. *)
Record FolderJson : Type := mkFolderJson {
  fj_id : string;
  fj_name : string;
  fj_parent_id : option string;
  fj_created_at : iso8601;
  fj_updated_at : iso8601
}.

Record FileJson : Type := mkFileJson {
  xj_id : string;
  xj_name : option string;
  xj_parent_id : option string;
  xj_size : nat;
  xj_mime_type : option string;
  xj_storage_path : option string;
  xj_created_at : iso8601;
  xj_updated_at : iso8601
}.

(** [serialize(doc)] on a folder document and on a file document. *)
Definition serialize_folder (k : ObjectId) (d : Folder) : FolderJson :=
  mkFolderJson (Bson.str k) (folder_name d) (folder_parent_id d)
    (isoformat (folder_created_at d)) (isoformat (folder_updated_at d)).

Definition serialize_file (k : ObjectId) (d : FileItem) : FileJson :=
  mkFileJson (Bson.str k) (file_name d) (file_parent_id d) (file_size d)
    (file_mime_type d) (file_storage_path d)
    (isoformat (file_created_at d)) (isoformat (file_updated_at d)).

(** ** The collection primitives the handlers use *)

Section Collection.
Context {D : Type}.

(** [col.find_one({"_id": k})]; [k] is [None] when [oid] returned [None],
    and no document has a null [_id]. *)
Definition find_one (col : gmap ObjectId D) (k : option ObjectId)
  : option (ObjectId * D) :=
  match k with
  | Some k => match col !! k with Some d => Some (k, d) | None => None end
  | None => None
  end.

(** [col.find({"parent_id": p})]: equality on the field; the filter
    [{"parent_id": None}] matches the documents whose field is null. *)
Definition find_parent (parent_of : D → option string)
    (col : gmap ObjectId D) (p : option string) : list (ObjectId * D) :=
  filter (λ kd, parent_of kd.2 = p) (map_to_list col).

(** [col.insert_one(doc)] with the [_id] the driver generated:
    [None] stands for [DuplicateKeyError]. *)
Definition insert_one (col : gmap ObjectId D) (k : ObjectId) (d : D)
  : option (gmap ObjectId D) :=
  match col !! k with
  | Some _ => None
  | None => Some (<[k := d]> col)
  end.
End Collection.

(** [db["fileitem"].delete_one({"_id": k})] and the same on "folder". *)
Definition delete_one_file (db : Database) (k : ObjectId) : Database :=
  mkDatabase (folder db) (delete k (fileitem db)) (history db ++ [DeletedFile k]).

Definition delete_one_folder (db : Database) (k : ObjectId) : Database :=
  mkDatabase (delete k (folder db)) (fileitem db) (history db ++ [DeletedFolder k]).

(** ** Requests and responses *)

Record CreateFolderRequest : Type := mkCreateFolderRequest {
  cf_name : string;
  cf_parent_id : option string
}.

Inductive ItemType : Type := file | folder_type.

Record RenameRequest : Type := mkRenameRequest {
  rn_id : string;
  rn_type : ItemType;
  rn_name : string
}.

Record Listing : Type := mkListing {
  folders : list FolderJson;
  files : list FileJson
}.

Record FileResponse : Type := mkFileResponse {
  path : string;
  media_type : option string;
  filename : string
}.

(** The bytes a [FileResponse] streams: the file at [path]. *)
Definition response_body (fs : gmap string Blob) (r : FileResponse) : option string :=
  content <$> fs !! path r.

Record Crumb : Type := mkCrumb {
  crumb_id : string;
  crumb_name : string
}.

Inductive Status : Type := status_ok.

(** ** Drive endpoints *)

(** [.sort("name", 1)]: ascending on the field, strings by their bytes;
    a missing field sorts before every string. *)
Definition folder_by_name : relation (ObjectId * Folder) :=
  λ a b, String.le (folder_name a.2) (folder_name b.2).

Definition opt_name_le (a b : option string) : Prop :=
  match a, b with
  | None, _ => True
  | Some _, None => False
  | Some x, Some y => String.le x y
  end.

Definition file_by_name : relation (ObjectId * FileItem) :=
  λ a b, opt_name_le (file_name a.2) (file_name b.2).

#[global] Instance folder_by_name_dec : RelDecision folder_by_name.
Proof. intros a b. unfold folder_by_name. apply _. Defined.

#[global] Instance opt_name_le_dec : RelDecision opt_name_le.
Proof. intros [x|] [y|]; simpl; apply _. Defined.

#[global] Instance file_by_name_dec : RelDecision file_by_name.
Proof. intros a b. unfold file_by_name. apply _. Defined.

(** [GET /drive/list] *)
Definition list_items (db : option Database) (parent_id : option string)
  : outcome Listing :=
  match db with
  | None => HTTPException 500 "Database not configured"
  | Some d =>
      let filt := if Py.truthy_opt parent_id then parent_id else None in
      let folders := merge_sort folder_by_name (find_parent folder_parent_id (folder d) filt) in
      let files := merge_sort file_by_name (find_parent file_parent_id (fileitem d) filt) in
      Ok (mkListing (map (λ f, serialize_folder f.1 f.2) folders)
                    (map (λ f, serialize_file f.1 f.2) files))
  end.

(** [POST /drive/folder]; [now] is [datetime.now(timezone.utc)] and
    [inserted_id] the [_id] the driver generates for the new document. *)
Definition create_folder (db : option Database) (now : datetime)
    (inserted_id : ObjectId) (payload : CreateFolderRequest)
  : outcome FolderJson * option Database :=
  match db with
  | None => (HTTPException 500 "Database not configured", db)
  | Some d =>
      let doc := mkFolder (Py.strip (cf_name payload))
                   (Py.or_None (cf_parent_id payload)) now now in
      if negb (Py.truthy (folder_name doc))
      then (HTTPException 400 "Name required", db)
      else match insert_one (folder d) inserted_id doc with
           | None => (Uncaught "DuplicateKeyError", db)
           | Some col =>
               (Ok (serialize_folder inserted_id doc),
                Some (mkDatabase col (fileitem d) (history d)))
           end
  end.

(** [UPLOAD_DIR], from the working directory of the process. *)
Definition UPLOAD_DIR (cwd : string) : string := Py.os_path_join cwd "uploads".

(** [POST /drive/upload]; [stamp] is the text of
    [datetime.now().timestamp()], [file_filename], [data] and
    [content_type] are the uploaded part. *)
Definition upload_file (db : option Database) (fs : gmap string Blob)
    (cwd stamp : string) (now : datetime) (inserted_id : ObjectId)
    (parent_id : option string)
    (file_filename data : string) (content_type : option string)
  : outcome FileJson * option Database * gmap string Blob :=
  match db with
  | None => (HTTPException 500 "Database not configured", db, fs)
  | Some d =>
      let safe_name := file_filename in
      let dest_path := Py.os_path_join (UPLOAD_DIR cwd) (stamp ++ "_" ++ safe_name)%string in
      match Os.write (UPLOAD_DIR cwd) fs dest_path data with
      | None => (Uncaught "FileNotFoundError", db, fs)
      | Some fs =>
          let size := Os.getsize fs dest_path in
          let doc := mkFileItem (Some safe_name) (Py.or_None parent_id) size
                       (Some (if Py.truthy_opt content_type
                              then default "" content_type
                              else "application/octet-stream"))
                       (Some dest_path) now now in
          match insert_one (fileitem d) inserted_id doc with
          | None => (Uncaught "DuplicateKeyError", db, fs)
          | Some col =>
              (Ok (serialize_file inserted_id doc),
               Some (mkDatabase (folder d) col (history d)), fs)
          end
      end
  end.

(** [GET /drive/download/{file_id}] *)
Definition download_file (db : option Database) (fs : gmap string Blob)
    (file_id : string) : outcome FileResponse :=
  match db with
  | None => HTTPException 500 "Database not configured"
  | Some d =>
      match oid (Some file_id) with
      | Ok k =>
          match find_one (fileitem d) k with
          | None => HTTPException 404 "File not found"
          | Some (_, doc) =>
              match file_storage_path doc with
              | Some p =>
                  if negb (Py.truthy p) || negb (Os.path_exists fs p)
                  then HTTPException 404 "Stored file missing"
                  else Ok (mkFileResponse p (file_mime_type doc)
                             (default "download" (file_name doc)))
              | None => HTTPException 404 "Stored file missing"
              end
          end
      | HTTPException c m => HTTPException c m
      | Uncaught e => Uncaught e
      end
  end.

(** [PATCH /drive/rename] *)
Definition rename_item (db : option Database) (now : datetime)
    (payload : RenameRequest)
  : outcome (FolderJson + FileJson) * option Database :=
  match db with
  | None => (HTTPException 500 "Database not configured", db)
  | Some d =>
      let new_name := Py.strip (rn_name payload) in
      if negb (Py.truthy new_name)
      then (HTTPException 400 "Name required", db)
      else
        match oid (Some (rn_id payload)) with
        | Ok k =>
            match rn_type payload with
            | file =>
                match find_one (fileitem d) k with
                | Some (k, doc) =>
                    let res := mkFileItem (Some new_name) (file_parent_id doc)
                                 (file_size doc) (file_mime_type doc)
                                 (file_storage_path doc) (file_created_at doc) now in
                    (Ok (inr (serialize_file k res)),
                     Some (mkDatabase (folder d) (<[k := res]> (fileitem d)) (history d)))
                | None => (HTTPException 404 "Item not found", db)
                end
            | folder_type =>
                match find_one (folder d) k with
                | Some (k, doc) =>
                    let res := mkFolder new_name (folder_parent_id doc)
                                 (folder_created_at doc) now in
                    (Ok (inl (serialize_folder k res)),
                     Some (mkDatabase (<[k := res]> (folder d)) (fileitem d) (history d)))
                | None => (HTTPException 404 "Item not found", db)
                end
            end
        | HTTPException c m => (HTTPException c m, db)
        | Uncaught e => (Uncaught e, db)
        end
  end.

(** The [try] block of [delete_item]: remove the stored file when the
    document names one and it exists; any exception is passed over. *)
Definition remove_from_disk (fs : gmap string Blob) (doc : FileItem)
  : gmap string Blob :=
  match file_storage_path doc with
  | Some p =>
      if Py.truthy p && Os.path_exists fs p
      then match Os.remove fs p with
           | Some fs' => fs'
           | None => fs
           end
      else fs
  | None => fs
  end.

(** The first loop of [delete_folder_recursive]: the files inside. *)
Definition delete_files_inside (folder_id : ObjectId)
    (st : Database * gmap string Blob) : Database * gmap string Blob :=
  foldl (λ st f, (delete_one_file st.1 f.1, remove_from_disk st.2 f.2)) st
    (find_parent file_parent_id (fileitem st.1) (Some (Bson.str folder_id))).

(** [delete_folder_recursive(folder_id)]: the files inside, then each
    subfolder, then the folder itself. *)
Fixpoint delete_folder_recursive (fuel : nat) (folder_id : ObjectId)
    (st : Database * gmap string Blob) : option (Database * gmap string Blob) :=
  match fuel with
  | O => None
  | S fuel =>
      let st := delete_files_inside folder_id st in
      let subs := find_parent folder_parent_id (folder st.1) (Some (Bson.str folder_id)) in
      match foldl (λ acc sub, acc ≫= delete_folder_recursive fuel sub.1) (Some st) subs with
      | Some st => Some (delete_one_folder st.1 folder_id, st.2)
      | None => None
      end
  end.

(** [DELETE /drive/item/{item_id}?type=] *)
Definition delete_item (fuel : nat) (db : option Database) (fs : gmap string Blob)
    (item_id : string) (type : ItemType)
  : option (outcome Status * option Database * gmap string Blob) :=
  match db with
  | None => Some (HTTPException 500 "Database not configured", db, fs)
  | Some d =>
      match type with
      | file =>
          match oid (Some item_id) with
          | Ok k =>
              match find_one (fileitem d) k with
              | None => Some (HTTPException 404 "File not found", db, fs)
              | Some (k, doc) =>
                  let fs := remove_from_disk fs doc in
                  Some (Ok status_ok, Some (delete_one_file d k), fs)
              end
          | HTTPException c m => Some (HTTPException c m, db, fs)
          | Uncaught e => Some (Uncaught e, db, fs)
          end
      | folder_type =>
          match oid (Some item_id) with
          | Ok k =>
              match find_one (folder d) k with
              | None => Some (HTTPException 404 "Folder not found", db, fs)
              | Some (k, _) =>
                  match delete_folder_recursive fuel k (d, fs) with
                  | Some (d, fs) => Some (Ok status_ok, Some d, fs)
                  | None => None
                  end
              end
          | HTTPException c m => Some (HTTPException c m, db, fs)
          | Uncaught e => Some (Uncaught e, db, fs)
          end
      end
  end.

(** The [while current:] loop of [get_breadcrumbs]; [crumbs] is the list
    built so far, in the order of the appends. *)
Fixpoint breadcrumbs_loop (fuel : nat) (col : gmap ObjectId Folder)
    (current : option (ObjectId * Folder)) (crumbs : list Crumb)
  : option (outcome (list Crumb)) :=
  match current with
  | None => Some (Ok crumbs)
  | Some (k, doc) =>
      match fuel with
      | O => None
      | S fuel =>
          let crumbs := (crumbs ++ [mkCrumb (Bson.str k) (folder_name doc)]) in
          let pid := folder_parent_id doc in
          if negb (Py.truthy_opt pid) then Some (Ok crumbs)
          else match Bson.parse (default "" pid) with
               | Some p => breadcrumbs_loop fuel col (find_one col (Some p)) crumbs
               | None => Some (Uncaught "InvalidId")
               end
      end
  end.

(** [GET /drive/breadcrumbs/{folder_id}] *)
Definition get_breadcrumbs (fuel : nat) (db : option Database) (folder_id : string)
  : option (outcome (list Crumb)) :=
  match db with
  | None => Some (HTTPException 500 "Database not configured")
  | Some d =>
      match oid (Some folder_id) with
      | Ok k =>
          match breadcrumbs_loop fuel (folder d) (find_one (folder d) k) [] with
          | Some (Ok crumbs) => Some (Ok (reverse crumbs))
          | r => r
          end
      | HTTPException c m => Some (HTTPException c m)
      | Uncaught e => Some (Uncaught e)
      end
  end.

(** ** Notions of the specification *)

(** [id_str] resolves to the document [doc], stored under [k]. *)
Definition resolves {D} (col : gmap ObjectId D) (id_str : string)
    (k : ObjectId) (doc : D) : Prop :=
  Bson.parse id_str = Some k ∧ col !! k = Some doc.

(** A name as the specification wants it stored: equal to its own
    [strip], and not empty. *)
Definition trimmed (s : string) : Prop := Py.strip s = s ∧ s ≠ "".

(** Every stored name is trimmed and non-empty. *)
Definition names_trimmed (d : Database) : Prop :=
  (∀ k doc, folder d !! k = Some doc → trimmed (folder_name doc)) ∧
  (∀ k doc, fileitem d !! k = Some doc → ∃ n, file_name doc = Some n ∧ trimmed n).

(** The parent link the breadcrumb walk follows: the [parent_id] of [k]
    is the identifier of the existing folder [p]. *)
Definition parent_link (col : gmap ObjectId Folder) (k p : ObjectId) : Prop :=
  ∃ doc pid, col !! k = Some doc ∧ folder_parent_id doc = Some pid ∧
             Bson.parse pid = Some p ∧ is_Some (col !! p).

(** Following the parent links upward from [k], some folder is met
    again. *)
Definition revisits (col : gmap ObjectId Folder) (k : ObjectId) : Prop :=
  ∃ a, rtc (parent_link col) k a ∧ tc (parent_link col) a a.

(** The parent chain of [k], leaf first: it ends at a folder whose
    [parent_id] is null (or empty), or is the identifier of no record. *)
Inductive parent_chain (col : gmap ObjectId Folder)
  : ObjectId → list (ObjectId * Folder) → Prop :=
| chain_root k doc :
    col !! k = Some doc →
    folder_parent_id doc = None ∨ folder_parent_id doc = Some "" →
    parent_chain col k [(k, doc)]
| chain_missing k doc pid p :
    col !! k = Some doc →
    folder_parent_id doc = Some pid → Bson.parse pid = Some p →
    col !! p = None →
    parent_chain col k [(k, doc)]
| chain_up k doc pid p rest :
    col !! k = Some doc →
    folder_parent_id doc = Some pid → Bson.parse pid = Some p →
    parent_chain col p rest →
    parent_chain col k ((k, doc) :: rest).

Definition crumb_of (f : ObjectId * Folder) : Crumb :=
  mkCrumb (Bson.str f.1) (folder_name f.2).

(** The tree below a folder, as [delete_folder_recursive] reads it:
    [c] is a child of [p] when the record [c] exists and its [parent_id]
    equals [str(p)]. *)
Definition child (col : gmap ObjectId Folder) (p c : ObjectId) : Prop :=
  ∃ doc, col !! c = Some doc ∧ folder_parent_id doc = Some (Bson.str p).

(** [x] is [F] or a descendant folder of [F]. *)
Definition in_subtree (col : gmap ObjectId Folder) (F x : ObjectId) : Prop :=
  rtc (child col) F x.

(** The file record [y] lies directly inside the folder [g]. *)
Definition direct_file (d : Database) (g y : ObjectId) : Prop :=
  ∃ doc, fileitem d !! y = Some doc ∧ file_parent_id doc = Some (Bson.str g).

(** The file record [y] lies inside [F] or inside a descendant of [F]. *)
Definition file_under (d : Database) (F y : ObjectId) : Prop :=
  ∃ g, in_subtree (folder d) F g ∧ direct_file d g y.



(** [d'] is [d] without the folders and files of the subtrees of the
    [roots], and nothing else is missing. *)
Definition removed_exactly (roots : ObjectId → Prop) (d d' : Database) : Prop :=
  folder d' ⊆ folder d ∧ fileitem d' ⊆ fileitem d ∧
  (∀ c x, roots c → in_subtree (folder d) c x → folder d' !! x = None) ∧
  (∀ c y, roots c → file_under d c y → fileitem d' !! y = None) ∧
  (∀ x, is_Some (folder d !! x) → folder d' !! x = None →
        ∃ c, roots c ∧ in_subtree (folder d) c x) ∧
  (∀ y, is_Some (fileitem d !! y) → fileitem d' !! y = None →
        ∃ c, roots c ∧ file_under d c y).



(** ** Sample stores *)

Module Sample.

Definition idA : ObjectId := mkObjectId "aaaaaaaaaaaaaaaaaaaaaaaa".
Definition idB : ObjectId := mkObjectId "bbbbbbbbbbbbbbbbbbbbbbbb".
Definition idC : ObjectId := mkObjectId "cccccccccccccccccccccccc".
Definition idX : ObjectId := mkObjectId "0123456789abcdef01234567".
Definition idY : ObjectId := mkObjectId "89abcdef0123456789abcdef".
Definition idZ : ObjectId := mkObjectId "fedcba9876543210fedcba98".

Definition empty_db : Database := mkDatabase ∅ ∅ [].

(** One file "a.txt" at the root, stored at "/srv/uploads/1.5_a.txt". *)
Definition a_txt : FileItem :=
  mkFileItem (Some "a.txt") None 2 (Some "text/plain")
    (Some "/srv/uploads/1.5_a.txt") 7%Z 7%Z.

Definition one_file_db : Database := mkDatabase ∅ {[ idX := a_txt ]} [].


Definition locked_disk : gmap string Blob :=
  {[ "/srv/uploads/1.5_a.txt" := mkBlob "hi" false ]}.

(** A and B are each other's parent. *)
Definition two_cycle_db : Database :=
  mkDatabase
    {[ idA := mkFolder "A" (Some (Bson.str idB)) 0%Z 0%Z;
       idB := mkFolder "B" (Some (Bson.str idA)) 0%Z 0%Z ]} ∅ [].

(** root → A → B → C *)
Definition three_levels_db : Database :=
  mkDatabase
    {[ idA := mkFolder "A" None 0%Z 0%Z;
       idB := mkFolder "B" (Some (Bson.str idA)) 0%Z 0%Z;
       idC := mkFolder "C" (Some (Bson.str idB)) 0%Z 0%Z ]} ∅ [].

(** What [create_folder] stores for the request
    [{"name": "Docs", "parent_id": "root"}]. *)
Definition dangling_db : Database :=
  mkDatabase {[ idA := mkFolder "Docs" (Some "root") 7%Z 7%Z ]} ∅ [].


(** Docs (A) holds a.txt (X) and the folder Sub (B), which holds b.txt
    (Y); Other (C) is a second root folder and holds c.txt (Z). *)
Definition docs : Folder := mkFolder "Docs" None 1%Z 1%Z.
Definition sub : Folder := mkFolder "Sub" (Some (Bson.str idA)) 2%Z 2%Z.
Definition other : Folder := mkFolder "Other" None 3%Z 3%Z.

Definition a_in_docs : FileItem :=
  mkFileItem (Some "a.txt") (Some (Bson.str idA)) 2 (Some "text/plain")
    (Some "/srv/uploads/1.5_a.txt") 4%Z 4%Z.
Definition b_in_sub : FileItem :=
  mkFileItem (Some "b.txt") (Some (Bson.str idB)) 3 (Some "text/plain")
    (Some "/srv/uploads/2.5_b.txt") 5%Z 5%Z.
Definition c_in_other : FileItem :=
  mkFileItem (Some "c.txt") (Some (Bson.str idC)) 1 (Some "text/plain")
    (Some "/srv/uploads/3.5_c.txt") 6%Z 6%Z.

Definition docs_db : Database :=
  mkDatabase {[ idA := docs; idB := sub; idC := other ]}
             {[ idX := a_in_docs; idY := b_in_sub; idZ := c_in_other ]} [].

Definition docs_disk : gmap string Blob :=
  {[ "/srv/uploads/1.5_a.txt" := mkBlob "hi" true;
     "/srv/uploads/2.5_b.txt" := mkBlob "hey" false;
     "/srv/uploads/3.5_c.txt" := mkBlob "c" true ]}.

End Sample.


(** ** Further notions, for the properties of the handlers *)

(** The identifiers the driver generates: [ObjectId(str(k))] is [k]. *)
Definition canonical (k : ObjectId) : Prop := Bson.parse (Bson.str k) = Some k.

(** Every file record names a stored file that is on the disk. *)
Definition blobs_present (d : Database) (fs : gmap string Blob) : Prop :=
  ∀ k doc, fileitem d !! k = Some doc →
    ∃ p b, file_storage_path doc = Some p ∧ fs !! p = Some b.

(** The crumb of the folder [k] with the name [n] in place of its own. *)
Definition retitle (k : ObjectId) (n : string) (c : Crumb) : Crumb :=
  if decide (crumb_id c = Bson.str k) then mkCrumb (crumb_id c) n else c.

Definition outcome_map {A B} (f : A → B) (r : outcome A) : outcome B :=
  match r with
  | Ok a => Ok (f a)
  | HTTPException c m => HTTPException c m
  | Uncaught e => Uncaught e
  end.

(** ** [GET /test] *)

Record TestResponse : Type := mkTestResponse {
  backend : string;
  database : string;
  database_url : option string;
  database_name : option string;
  connection_status : string;
  collections : list string
}.

(** [s[:n]] *)
Fixpoint slice_to (n : nat) (s : string) : string :=
  match n, s with
  | S n, String a s' => String a (slice_to n s')
  | _, _ => EmptyString
  end.

(** [test_database()]; [db_name] is [db.name], [listing] what
    [db.list_collection_names()] does (the names, or the text of the
    exception it raises), [getenv] the environment.  Nothing outside the
    inner [try] raises, so the outer handler is never entered.  The marks
    of the fixed messages are kept as the bytes of their UTF-8 text; no
    code measures or slices them. *)
Definition test_database (db : option Database) (db_name : string)
    (listing : string + list string) (getenv : string → option string)
  : TestResponse :=
  let response :=
    mkTestResponse "✅ Running" "❌ Not Available" None None "Not Connected" [] in
  let response :=
    match db with
    | Some _ =>
        let response :=
          mkTestResponse (backend response) "✅ Available" (database_url response)
            (Some db_name) "Connected" (collections response) in
        match listing with
        | inr names =>
            mkTestResponse (backend response) "✅ Connected & Working"
              (database_url response) (database_name response)
              (connection_status response) names
        | inl e =>
            mkTestResponse (backend response)
              ("⚠️ Connected but Error: " ++ slice_to 50 e)%string
              (database_url response) (database_name response)
              (connection_status response) (collections response)
        end
    | None =>
        mkTestResponse (backend response) "⚠️ Available but not initialized"
          (database_url response) (database_name response)
          (connection_status response) (collections response)
    end in
  let response :=
    mkTestResponse (backend response) (database response)
      (Some (if Py.truthy_opt (getenv "DATABASE_URL") then "✅ Set" else "❌ Not Set"))
      (database_name response) (connection_status response) (collections response) in
  mkTestResponse (backend response) (database response) (database_url response)
    (Some (if Py.truthy_opt (getenv "DATABASE_NAME") then "✅ Set" else "❌ Not Set"))
    (connection_status response) (collections response).

(** ** [schemas.py] *)

Module Schemas.

(** The model [Folder] applied to a document: [name] has between 1 and 120 characters; [parent_id]
    is optional.  [false] stands for pydantic's [ValidationError]. *)
Definition Folder_valid (doc : Folder) : bool :=
  ((1 <=? String.length (folder_name doc))
   && (String.length (folder_name doc) <=? 120))%nat.


End Schemas.




(** ** More sample stores *)

Module Sample2.

(** The sample drive after Docs was deleted. *)
Definition after_delete_db : Database :=
  mkDatabase {[ Sample.idC := Sample.other ]} {[ Sample.idZ := Sample.c_in_other ]}
    [DeletedFile Sample.idX; DeletedFile Sample.idY;
     DeletedFolder Sample.idB; DeletedFolder Sample.idA].

Definition after_delete_disk : gmap string Blob :=
  {[ "/srv/uploads/2.5_b.txt" := mkBlob "hey" false;
     "/srv/uploads/3.5_c.txt" := mkBlob "c" true ]}.

(** The empty store after the folder " Docs " was created. *)
Definition docs_created_db : Database :=
  mkDatabase {[ Sample.idA := mkFolder "Docs" None 5%Z 5%Z ]} ∅ [].

(** root → A → B → C after B was renamed to "Beta". *)
Definition beta_db : Database :=
  mkDatabase
    {[ Sample.idA := mkFolder "A" None 0%Z 0%Z;
       Sample.idB := mkFolder "Beta" (Some (Bson.str Sample.idA)) 0%Z 9%Z;
       Sample.idC := mkFolder "C" (Some (Bson.str Sample.idB)) 0%Z 0%Z ]} ∅ [].

End Sample2.

(** * Properties *)

(** ** [strip] *)

Section Strip.

Lemma lstrip_head s :
  Py.lstrip s = "" ∨ ∃ a t, Py.lstrip s = String a t ∧ Py.isspace a = false.
Proof.
  induction s as [|a s IH]; simpl; [by left|].
  destruct (Py.isspace a) eqn:Ha; [done|]. right. by exists a, s.
Qed.

Lemma rstrip_idemp s : Py.rstrip (Py.rstrip s) = Py.rstrip s.
Proof.
  induction s as [|a s IH]; simpl; [done|].
  destruct (Py.rstrip s) as [|b r] eqn:Hr.
  - destruct (Py.isspace a) eqn:Ha; simpl; [done|]. by rewrite Ha.
  - change (Py.rstrip (String a (String b r)))
      with (match Py.rstrip (String b r) with
            | "" => if Py.isspace a then "" else String a ""
            | r' => String a r'
            end).
    by rewrite IH.
Qed.

Lemma rstrip_keeps_head a t :
  Py.isspace a = false → ∃ r, Py.rstrip (String a t) = String a r.
Proof.
  intros Ha. simpl. destruct (Py.rstrip t); [rewrite Ha|]; eauto.
Qed.

Lemma lstrip_rstrip_lstrip s :
  Py.lstrip (Py.rstrip (Py.lstrip s)) = Py.rstrip (Py.lstrip s).
Proof.
  destruct (lstrip_head s) as [->|(a & t & -> & Ha)]; [done|].
  destruct (rstrip_keeps_head a t Ha) as [r ->]. simpl. by rewrite Ha.
Qed.

Lemma strip_idemp s : Py.strip (Py.strip s) = Py.strip s.
Proof.
  unfold Py.strip. rewrite lstrip_rstrip_lstrip. apply rstrip_idemp.
Qed.

Lemma strip_trimmed s : Py.strip s ≠ "" → trimmed (Py.strip s).
Proof. intros Hne. split; [apply strip_idemp|done]. Qed.

Lemma truthy_true s : Py.truthy s = true ↔ s ≠ "".
Proof. destruct s; simpl; split; congruence. Qed.


End Strip.

(** ** Identifiers *)

Lemma parse_nonempty s k : Bson.parse s = Some k → s ≠ "".
Proof. intros H ->. discriminate H. Qed.

Lemma oid_parse s k : Bson.parse s = Some k → oid (Some s) = Ok (Some k).
Proof.
  intros H. unfold oid. pose proof (parse_nonempty _ _ H) as Hne.
  apply truthy_true in Hne. simpl. by rewrite Hne, H.
Qed.



(** ** Download *)




(** ** Deleting a file *)

Lemma remove_from_disk_cases (fs : gmap string Blob) (doc : FileItem) :
  (file_storage_path doc = None → remove_from_disk fs doc = fs) ∧
  (∀ p, file_storage_path doc = Some p →
     (fs !! p = None → remove_from_disk fs doc = fs) ∧
     (∀ b, fs !! p = Some b → removable b = false → remove_from_disk fs doc = fs) ∧
     (∀ b, fs !! p = Some b → removable b = true → p ≠ "" →
        remove_from_disk fs doc = delete p fs)).
Proof.
  unfold remove_from_disk. split; [by intros ->|].
  intros p ->. unfold Os.path_exists, Os.remove. repeat split.
  - intros ->. rewrite bool_decide_eq_false_2 by (by intros [? ?]).
    by rewrite andb_false_r.
  - intros b -> ->. by destruct (_ && _).
  - intros b -> -> Hne%truthy_true. rewrite Hne.
    by rewrite bool_decide_eq_true_2 by eauto.
Qed.

(** C7.  Deleting an existing file record answers ok whatever the state
    of the upload directory: the stored file is removed when it exists and
    may be removed, the directory is left as it is when the file is
    already gone or [os.remove] raises, and in every case the record is
    deleted, the other records staying as they were. *)
Theorem delete_item_file (fuel : nat) (d : Database) (fs : gmap string Blob)
    (item_id : string) (k : ObjectId) (doc : FileItem) :
  resolves (fileitem d) item_id k doc →
  ∃ d' fs',
    delete_item fuel (Some d) fs item_id file = Some (Ok status_ok, Some d', fs') ∧
    fileitem d' = delete k (fileitem d) ∧
    fileitem d' !! k = None ∧
    folder d' = folder d ∧
    history d' = (history d ++ [DeletedFile k]) ∧
    fs' = remove_from_disk fs doc ∧
    (∀ p, file_storage_path doc = Some p →
       (fs !! p = None → fs' = fs) ∧
       (∀ b, fs !! p = Some b → removable b = false → fs' = fs) ∧
       (∀ b, fs !! p = Some b → removable b = true → p ≠ "" → fs' = delete p fs)).
Proof.
  intros [Hp Hk]. exists (delete_one_file d k), (remove_from_disk fs doc).
  unfold delete_item. rewrite (oid_parse _ _ Hp). simpl. rewrite Hk.
  repeat split; try done.
  - simpl. apply lookup_delete_eq.
  - by apply remove_from_disk_cases.
  - by apply remove_from_disk_cases.
  - by apply remove_from_disk_cases.
Qed.

Lemma delete_item_file_witness :
  ∃ d',
    delete_item 0 (Some Sample.one_file_db) Sample.locked_disk
      "0123456789abcdef01234567" file
      = Some (Ok status_ok, Some d', Sample.locked_disk) ∧
    fileitem d' !! Sample.idX = None.
Proof.
  destruct (delete_item_file 0 Sample.one_file_db Sample.locked_disk
              "0123456789abcdef01234567" Sample.idX Sample.a_txt)
    as (d' & fs' & H & _ & Hgone & _ & _ & Hfs & _).
  - split; vm_compute; reflexivity.
  - exists d'. split; [|exact Hgone].
    rewrite H. rewrite Hfs. vm_compute. reflexivity.
Defined.

(** ** Creating and listing *)

Lemma find_parent_elem {D} (parent_of : D → option string)
    (col : gmap ObjectId D) (p : option string) (k : ObjectId) (doc : D) :
  (k, doc) ∈ find_parent parent_of col p ↔ col !! k = Some doc ∧ parent_of doc = p.
Proof.
  unfold find_parent. rewrite list_elem_of_filter, elem_of_map_to_list. simpl.
  tauto.
Qed.

(** C9.  After a successful [create_folder] with name [n] and parent
    [p], [list_items] on [p] answers a listing whose folders include the
    new one, named [strip n]. *)
Theorem create_folder_then_list (d : Database) (now : datetime)
    (inserted_id : ObjectId) (n : string) (p : option string)
    (rec : FolderJson) (db' : option Database) :
  Py.strip n ≠ "" →
  create_folder (Some d) now inserted_id (mkCreateFolderRequest n p) = (Ok rec, db') →
  ∃ l f, list_items db' p = Ok l ∧
         In f (folders l) ∧
         fj_name f = Py.strip n ∧
         fj_id f = Bson.str inserted_id ∧
         f = rec.
Proof.
  intros Hne. unfold create_folder. simpl.
  apply truthy_true in Hne. rewrite Hne. simpl.
  unfold insert_one. destruct (folder d !! inserted_id) eqn:Hk; [intros H; inversion H|].
  intros [= <- <-]. unfold list_items. simpl.
  eexists. exists (serialize_folder inserted_id
                      (mkFolder (Py.strip n) (Py.or_None p) now now)).
  split; [done|]. simpl. split; [|done].
  apply in_map_iff.
  exists (inserted_id, mkFolder (Py.strip n) (Py.or_None p) now now).
  split; [done|]. apply list_elem_of_In.
  rewrite merge_sort_Permutation. apply find_parent_elem.
  split; [apply lookup_insert_eq|done].
Qed.

Lemma create_folder_then_list_witness :
  ∃ l f, list_items
           (create_folder (Some Sample.empty_db) 5%Z Sample.idA
              (mkCreateFolderRequest "  Docs " None)).2 None = Ok l ∧
         In f (folders l) ∧ fj_name f = "Docs".
Proof.
  destruct (create_folder_then_list Sample.empty_db 5%Z Sample.idA "  Docs " None
              (serialize_folder Sample.idA (mkFolder "Docs" None 5%Z 5%Z))
              (create_folder (Some Sample.empty_db) 5%Z Sample.idA
                 (mkCreateFolderRequest "  Docs " None)).2)
    as (l & f & Hl & Hin & Hname & _).
  - vm_compute. discriminate.
  - vm_compute. reflexivity.
  - exists l, f. split; [exact Hl|]. split; [exact Hin|]. exact Hname.
Defined.

(** ** Stored names *)

Lemma create_folder_names_trimmed d now k payload r d' :
  names_trimmed d →
  create_folder (Some d) now k payload = (r, Some d') →
  names_trimmed d'.
Proof.
  intros [Hf Hx]. unfold create_folder. simpl.
  destruct (Py.truthy (Py.strip (cf_name payload))) eqn:Hn; simpl;
    [|intros [= _ <-]; by split].
  unfold insert_one. destruct (folder d !! k); [intros [= _ <-]; by split|].
  intros [= _ <-]. split; simpl; [|done].
  intros k' doc [[_ <-]|[_ ?]]%lookup_insert_Some; [|by eauto].
  simpl. apply strip_trimmed. by apply truthy_true.
Qed.

Lemma rename_item_names_trimmed d now payload r d' :
  names_trimmed d →
  rename_item (Some d) now payload = (r, Some d') →
  names_trimmed d'.
Proof.
  intros [Hf Hx]. unfold rename_item. simpl.
  destruct (Py.truthy (Py.strip (rn_name payload))) eqn:Hn; simpl;
    [|intros [= _ <-]; by split].
  assert (trimmed (Py.strip (rn_name payload))) as Htr
    by (apply strip_trimmed; by apply truthy_true).
  destruct (oid (Some (rn_id payload))) as [[k|]| |];
    [| |intros [= _ <-]; by split..].
  - destruct (rn_type payload); simpl.
    + destruct (fileitem d !! k) as [doc|]; [|intros [= _ <-]; by split].
      intros [= _ <-]. split; simpl; [done|].
      intros k' doc' [[_ <-]|[_ ?]]%lookup_insert_Some; [|by eauto].
      simpl. eauto.
    + destruct (folder d !! k) as [doc|]; [|intros [= _ <-]; by split].
      intros [= _ <-]. split; simpl; [|done].
      intros k' doc' [[_ <-]|[_ ?]]%lookup_insert_Some; [|by eauto].
      done.
  - destruct (rn_type payload); simpl; intros [= _ <-]; by split.
Qed.

(** C4, at the failing input.  [upload_file] stores the file name as it
    was sent: on the empty store, uploading a file named " a.txt " leaves
    a record whose name is not trimmed, so the invariant that
    [create_folder] and [rename_item] maintain is broken. *)
Theorem upload_file_stores_untrimmed_name :
  ∃ rec d' fs',
    upload_file (Some Sample.empty_db) ∅ "/srv" "1.5" 7%Z Sample.idX None
      " a.txt " "hi" (Some "text/plain") = (Ok rec, Some d', fs') ∧
    names_trimmed Sample.empty_db ∧
    (∃ doc, fileitem d' !! Sample.idX = Some doc ∧ file_name doc = Some " a.txt ") ∧
    Py.strip " a.txt " = "a.txt" ∧
    ¬ names_trimmed d'.
Proof.
  eexists _, _, _. split; [vm_compute; reflexivity|].
  split; [split; intros k doc H; vm_compute in H; discriminate H|].
  split; [eexists; split; vm_compute; reflexivity|].
  split; [reflexivity|].
  intros [_ Hx].
  destruct (Hx Sample.idX
              (mkFileItem (Some " a.txt ") None 2 (Some "text/plain")
                 (Some "/srv/uploads/1.5_ a.txt ") 7%Z 7%Z))
    as (n & Hn & Hs & _); [vm_compute; reflexivity|].
  simpl in Hn. injection Hn as <-. vm_compute in Hs. discriminate Hs.
Qed.

(** When the stored file cannot be written, no record is created. *)
Example upload_file_write_fails :
  upload_file (Some Sample.empty_db) ∅ "/srv" "1.5" 7%Z Sample.idX None
    "a/b.txt" "hi" (Some "text/plain")
  = (Uncaught "FileNotFoundError", Some Sample.empty_db, ∅).
Proof. vm_compute. reflexivity. Qed.

(** ** Breadcrumbs *)

Lemma find_one_Some {D} (col : gmap ObjectId D) k doc :
  col !! k = Some doc → find_one col (Some k) = Some (k, doc).
Proof. intros H. simpl. by rewrite H. Qed.






Lemma tc_last_step {A} (R : relation A) x y :
  tc R x y → ∃ z, rtc R x z ∧ R z y.
Proof.
  induction 1 as [x y Hxy|x w y Hxw _ (z & Hwz & Hzy)].
  - exists x. split; [apply rtc_refl|done].
  - exists z. split; [by eapply rtc_l|done].
Qed.

(** A relation without cycle below [k], all of whose targets lie in a
    finite list, is well founded at [k]. *)
Lemma acyclic_finite_sn {A} (R : relation A) (k : A) (xs : list A) :
  (∀ x y, R x y → y ∈ xs) →
  (∀ x, rtc R k x → ¬ tc R x x) →
  sn R k.
Proof.
  intros Hfin Hacyc.
  set (R' := λ x y, rtc R k x ∧ R x y).
  assert (∀ x y, tc R' x y → rtc R k x ∧ tc R x y) as Htc.
  { induction 1 as [x y [Hkx Hxy]|x y z [Hkx Hxy] _ [_ IH]].
    - split; [done|by apply tc_once].
    - split; [done|by eapply tc_l]. }
  assert (∀ x, sn R' x → rtc R k x → sn R x) as Hsn.
  { induction 1 as [x _ IH]. intros Hkx. constructor. intros y Hxy.
    apply IH; [by split|]. by eapply rtc_r. }
  apply Hsn; [|apply rtc_refl]. apply tc_finite_sn.
  - intros x [Hkx Hxx]%Htc. by apply (Hacyc x).
  - exists xs. intros y (x & _ & [_ Hxy])%tc_last_step. by eapply Hfin.
Qed.

Section BreadcrumbWalk.
Variable col : gmap ObjectId Folder.

(** One turn of the loop along a parent link. *)
Lemma breadcrumbs_loop_link fuel k doc p crumbs :
  col !! k = Some doc → parent_link col k p →
  breadcrumbs_loop (S fuel) col (Some (k, doc)) crumbs
  = breadcrumbs_loop fuel col (find_one col (Some p))
      (crumbs ++ [crumb_of (k, doc)]).
Proof.
  intros Hk (doc' & pid & Hk' & Hpid & Hp & _).
  assert (doc' = doc) as -> by congruence.
  simpl. rewrite Hpid. simpl.
  pose proof (parse_nonempty _ _ Hp) as Hne%truthy_true. rewrite Hne. simpl.
  by rewrite Hp.
Qed.

Lemma parent_link_exists k p : parent_link col k p → ∃ doc, col !! p = Some doc.
Proof. by intros (_ & _ & _ & _ & _ & [doc ?]); exists doc. Qed.

(** From a folder that can reach a folder lying on a cycle, the loop
    uses up any fuel. *)
Lemma breadcrumbs_loop_diverges a :
  tc (parent_link col) a a →
  ∀ fuel k doc crumbs,
    col !! k = Some doc → tc (parent_link col) k a →
    breadcrumbs_loop fuel col (Some (k, doc)) crumbs = None.
Proof.
  intros Hcycle fuel. induction fuel as [|fuel IH]; intros k doc crumbs Hk Hka.
  - reflexivity.
  - inversion Hka as [? ? Hstep|? y ? Hstep Hya]; subst.
    + rewrite (breadcrumbs_loop_link _ _ _ a) by done.
      destruct (parent_link_exists _ _ Hstep) as [doc' Ha].
      rewrite (find_one_Some _ _ _ Ha). by apply IH.
    + rewrite (breadcrumbs_loop_link _ _ _ y) by done.
      destruct (parent_link_exists _ _ Hstep) as [doc' Hy].
      rewrite (find_one_Some _ _ _ Hy). by apply IH.
Qed.

(** Where the links above [k] are well founded, the loop returns. *)
Lemma breadcrumbs_loop_returns k :
  sn (parent_link col) k →
  ∀ doc crumbs, col !! k = Some doc →
    ∃ fuel r, breadcrumbs_loop fuel col (Some (k, doc)) crumbs = Some r.
Proof.
  induction 1 as [k _ IH]. intros doc crumbs Hk.
  destruct (folder_parent_id doc) as [pid|] eqn:Hpid;
    [|exists 1, (Ok (crumbs ++ [crumb_of (k, doc)])); simpl; by rewrite Hpid].
  destruct (Py.truthy pid) eqn:Hne;
    [|exists 1, (Ok (crumbs ++ [crumb_of (k, doc)])); simpl;
      rewrite Hpid; simpl; by rewrite Hne].
  destruct (Bson.parse pid) as [p|] eqn:Hp;
    [|exists 1, (Uncaught "InvalidId"); simpl;
      rewrite Hpid; simpl; by rewrite Hne, Hp].
  destruct (col !! p) as [doc'|] eqn:Hpk.
  - assert (parent_link col k p) as Hlink by (exists doc, pid; eauto).
    destruct (IH p Hlink doc' (crumbs ++ [crumb_of (k, doc)]) Hpk)
      as (fuel & r & Hr).
    exists (S fuel), r.
    by rewrite (breadcrumbs_loop_link _ _ _ p), (find_one_Some _ _ _ Hpk).
  - exists 1, (Ok (crumbs ++ [crumb_of (k, doc)])). simpl.
    rewrite Hpid. simpl. by rewrite Hne, Hp, Hpk.
Qed.

(** A chain that meets no folder twice is well founded: the collection
    is finite. *)
Lemma no_revisit_sn k : ¬ revisits col k → sn (parent_link col) k.
Proof.
  intros Hno. apply (acyclic_finite_sn _ _ (map_to_list col).*1).
  - intros x y [doc Hdoc]%parent_link_exists.
    apply list_elem_of_fmap. exists (y, doc). split; [done|].
    by apply elem_of_map_to_list.
  - intros x Hkx Hxx. apply Hno. by exists x.
Qed.

(** The loop along a parent chain: the crumbs of the chain are
    appended leaf first. *)
Lemma breadcrumbs_loop_chain k chain :
  parent_chain col k chain →
  ∀ doc crumbs, col !! k = Some doc →
    breadcrumbs_loop (S (length chain)) col (Some (k, doc)) crumbs
    = Some (Ok (crumbs ++ (crumb_of <$> chain))).
Proof.
  induction 1 as [k doc Hk Hroot|k doc pid p Hk Hpid Hp Hmiss
                 |k doc pid p rest Hk Hpid Hp Hrest IH];
    intros doc' crumbs Hk'; assert (doc' = doc) as -> by congruence.
  - simpl. by destruct Hroot as [->| ->].
  - simpl. rewrite Hpid. simpl.
    pose proof (parse_nonempty _ _ Hp) as Hne%truthy_true.
    by rewrite Hne, Hp, Hmiss.
  - assert (∃ docp, col !! p = Some docp) as [docp Hpk]
        by (inversion Hrest; eauto).
    rewrite (breadcrumbs_loop_link _ _ _ p); [|done|exists doc, pid; eauto].
    rewrite (find_one_Some _ _ _ Hpk). simpl length.
    rewrite (IH docp _ Hpk). simpl. by rewrite <- app_assoc.
Qed.
End BreadcrumbWalk.

Lemma get_breadcrumbs_diverges d folder_id k doc :
  resolves (folder d) folder_id k doc → revisits (folder d) k →
  ∀ fuel, get_breadcrumbs fuel (Some d) folder_id = None.
Proof.
  intros [Hp Hk] (a & Hka & Haa) fuel. unfold get_breadcrumbs.
  rewrite (oid_parse _ _ Hp), (find_one_Some _ _ _ Hk).
  rewrite (breadcrumbs_loop_diverges (folder d) a Haa); [done..|].
  by eapply tc_rtc_l.
Qed.

Lemma get_breadcrumbs_returns d folder_id k doc :
  resolves (folder d) folder_id k doc → ¬ revisits (folder d) k →
  ∃ fuel r, get_breadcrumbs fuel (Some d) folder_id = Some r.
Proof.
  intros [Hp Hk] Hno.
  destruct (breadcrumbs_loop_returns (folder d) k (no_revisit_sn _ _ Hno) doc [] Hk)
    as (fuel & r & Hr).
  exists fuel. unfold get_breadcrumbs.
  rewrite (oid_parse _ _ Hp), (find_one_Some _ _ _ Hk), Hr.
  destruct r; eauto.
Qed.

Lemma two_cycle_revisits : revisits (folder Sample.two_cycle_db) Sample.idA.
Proof.
  assert (parent_link (folder Sample.two_cycle_db) Sample.idA Sample.idB) as HAB.
  { eexists _, _. repeat split; [vm_compute; reflexivity..|].
    vm_compute. eauto. }
  assert (parent_link (folder Sample.two_cycle_db) Sample.idB Sample.idA) as HBA.
  { eexists _, _. repeat split; [vm_compute; reflexivity..|].
    vm_compute. eauto. }
  exists Sample.idA. split; [apply rtc_refl|].
  eapply tc_l; [exact HAB|]. by apply tc_once.
Qed.

(** C1, as the code has it.  The walk has no cycle guard: from a folder
    whose parent chain meets some folder twice, [get_breadcrumbs] never
    returns, neither a chain nor an error; it returns exactly when the
    chain meets no folder twice. *)
Theorem get_breadcrumbs_cycle (d : Database) (folder_id : string)
    (k : ObjectId) (doc : Folder) :
  resolves (folder d) folder_id k doc →
  (revisits (folder d) k → ∀ fuel, get_breadcrumbs fuel (Some d) folder_id = None) ∧
  (¬ revisits (folder d) k →
     ∃ fuel r, get_breadcrumbs fuel (Some d) folder_id = Some r).
Proof.
  intros Hres. split.
  - by apply (get_breadcrumbs_diverges d folder_id k doc).
  - by apply (get_breadcrumbs_returns d folder_id k doc).
Qed.

Lemma get_breadcrumbs_cycle_witness :
  get_breadcrumbs 1000 (Some Sample.two_cycle_db) "aaaaaaaaaaaaaaaaaaaaaaaa" = None.
Proof.
  apply (get_breadcrumbs_cycle Sample.two_cycle_db "aaaaaaaaaaaaaaaaaaaaaaaa"
           Sample.idA (mkFolder "A" (Some (Bson.str Sample.idB)) 0%Z 0%Z)).
  - split; vm_compute; reflexivity.
  - exact two_cycle_revisits.
Defined.

(** C1 as stated fails: with A.parent = B and B.parent = A the chain of A
    contains a cycle, and no amount of fuel lets [get_breadcrumbs]
    return. *)
Lemma get_breadcrumbs_two_cycle_loops :
  revisits (folder Sample.two_cycle_db) Sample.idA ∧
  ¬ ∃ fuel r,
      get_breadcrumbs fuel (Some Sample.two_cycle_db) "aaaaaaaaaaaaaaaaaaaaaaaa"
      = Some r.
Proof.
  split; [exact two_cycle_revisits|].
  intros (fuel & r & H).
  rewrite (get_breadcrumbs_diverges Sample.two_cycle_db _ Sample.idA
             (mkFolder "A" (Some (Bson.str Sample.idB)) 0%Z 0%Z)) in H.
  - discriminate H.
  - split; vm_compute; reflexivity.
  - exact two_cycle_revisits.
Qed.

(** On a parent chain that ends at a null parent or at the identifier
    of no record, the answer is the chain, root first. *)
Lemma get_breadcrumbs_chain d folder_id k doc chain :
  resolves (folder d) folder_id k doc →
  parent_chain (folder d) k chain →
  get_breadcrumbs (S (length chain)) (Some d) folder_id
  = Some (Ok (reverse (crumb_of <$> chain))).
Proof.
  intros [Hp Hk] Hchain. unfold get_breadcrumbs.
  rewrite (oid_parse _ _ Hp), (find_one_Some _ _ _ Hk).
  by rewrite (breadcrumbs_loop_chain _ _ _ Hchain _ _ Hk).
Qed.

Example get_breadcrumbs_three_levels :
  get_breadcrumbs 4 (Some Sample.three_levels_db) "cccccccccccccccccccccccc"
  = Some (Ok [mkCrumb "aaaaaaaaaaaaaaaaaaaaaaaa" "A";
              mkCrumb "bbbbbbbbbbbbbbbbbbbbbbbb" "B";
              mkCrumb "cccccccccccccccccccccccc" "C"]).
Proof. vm_compute. reflexivity. Qed.

(** C6, at the failing input.  [create_folder] accepts the parent
    "root" as it is; the folder it stores has a parent that names no
    record, and the walk from it does not stop there: [ObjectId(pid)]
    raises [InvalidId], which nothing catches. *)
Theorem get_breadcrumbs_malformed_parent :
  (create_folder (Some Sample.empty_db) 7%Z Sample.idA
     (mkCreateFolderRequest "Docs" (Some "root"))).2 = Some Sample.dangling_db ∧
  (∀ p, ¬ parent_link (folder Sample.dangling_db) Sample.idA p) ∧
  (∀ fuel, get_breadcrumbs (S fuel) (Some Sample.dangling_db)
             "aaaaaaaaaaaaaaaaaaaaaaaa" = Some (Uncaught "InvalidId")).
Proof.
  split; [vm_compute; reflexivity|]. split.
  - intros p (doc & pid & Hk & Hpid & Hp & _).
    vm_compute in Hk. injection Hk as <-. simpl in Hpid. injection Hpid as <-.
    vm_compute in Hp. discriminate Hp.
  - intros fuel. reflexivity.
Qed.

(** ** The tree below a folder *)

Lemma str_inj p q : Bson.str p = Bson.str q → p = q.
Proof. destruct p, q. simpl. by intros ->. Qed.

Section Subtree.
Implicit Types col : gmap ObjectId Folder.

Lemma child_exists col p c : child col p c → is_Some (col !! c).
Proof. intros (doc & ? & _). eauto. Qed.


Lemma child_weaken col col' p c :
  col' ⊆ col → child col' p c → child col p c.
Proof.
  intros Hsub (doc & Hc & Hp). exists doc. split; [|done].
  by eapply lookup_weaken.
Qed.

Lemma child_keep col col' p c :
  col' ⊆ col → child col p c → is_Some (col' !! c) → child col' p c.
Proof.
  intros Hsub (doc & Hc & Hp) [doc' Hc']. exists doc. split; [|done].
  rewrite Hc'. f_equal. pose proof (lookup_weaken _ _ _ _ Hc' Hsub). congruence.
Qed.

Lemma in_subtree_weaken col col' F x :
  col' ⊆ col → in_subtree col' F x → in_subtree col F x.
Proof.
  intros Hsub. unfold in_subtree. induction 1; [apply rtc_refl|].
  eapply rtc_l; [|done]. by eapply child_weaken.
Qed.

Lemma in_subtree_exists col F x :
  in_subtree col F x → x = F ∨ is_Some (col !! x).
Proof.
  intros [->|(y & _ & Hyx)]%rtc_inv_r; [by left|right].
  by eapply child_exists.
Qed.





End Subtree.


(** ** Cursors *)

Lemma find_parent_keys_NoDup {D} (parent_of : D → option string)
    (col : gmap ObjectId D) (p : option string) :
  NoDup (find_parent parent_of col p).*1.
Proof.
  eapply sublist_NoDup; [apply (NoDup_fst_map_to_list col)|].
  apply fmap_sublist, sublist_filter.
Qed.

Lemma find_parent_keys {D} (parent_of : D → option string)
    (col : gmap ObjectId D) (p : option string) (k : ObjectId) :
  k ∈ (find_parent parent_of col p).*1 ↔
  ∃ doc, col !! k = Some doc ∧ parent_of doc = p.
Proof.
  rewrite list_elem_of_fmap. split.
  - intros ([k' doc] & -> & H%find_parent_elem). by exists doc.
  - intros (doc & H). exists (k, doc). split; [done|]. by apply find_parent_elem.
Qed.

Lemma find_parent_child col F c :
  c ∈ (find_parent folder_parent_id col (Some (Bson.str F))).*1 ↔ child col F c.
Proof. apply find_parent_keys. Qed.

Lemma find_parent_direct_file d F y :
  y ∈ (find_parent file_parent_id (fileitem d) (Some (Bson.str F))).*1 ↔
  direct_file d F y.
Proof. apply find_parent_keys. Qed.

Lemma foldl_bind_None {A B} (f : B → A → option A) (l : list B) :
  foldl (λ acc x, acc ≫= f x) None l = None.
Proof. by induction l. Qed.

(** ** The files inside a folder *)

Lemma delete_files_fold (l : list (ObjectId * FileItem)) :
  ∀ st,
    let st' := foldl (λ st f, (delete_one_file st.1 f.1, remove_from_disk st.2 f.2))
                 st l in
    folder st'.1 = folder st.1 ∧
    (∀ y, fileitem st'.1 !! y
          = if decide (y ∈ l.*1) then None else fileitem st.1 !! y) ∧
    history st'.1 = history st.1 ++ (DeletedFile <$> l.*1).
Proof.
  induction l as [|f l IH]; intros st; simpl.
  - split; [done|]. split; [done|]. by rewrite app_nil_r.
  - destruct (IH (delete_one_file st.1 f.1, remove_from_disk st.2 f.2))
      as (Hfo & Hfi & Hhi).
    split; [by rewrite Hfo|]. split.
    + intros y. rewrite Hfi. simpl.
      destruct (decide (y ∈ l.*1)) as [Hl|Hl]; case_decide as Hin; try done.
      * exfalso. apply Hin. by right.
      * apply elem_of_cons in Hin as [->|?]; [|done]. apply lookup_delete_eq.
      * apply lookup_delete_ne. intros <-. apply Hin. by left.
    + rewrite Hhi. simpl. by rewrite <- app_assoc.
Qed.

Lemma delete_files_inside_spec F st :
  let st' := delete_files_inside F st in
  folder st'.1 = folder st.1 ∧
  fileitem st'.1 ⊆ fileitem st.1 ∧
  (∀ y, direct_file st.1 F y → fileitem st'.1 !! y = None) ∧
  (∀ y, is_Some (fileitem st.1 !! y) → fileitem st'.1 !! y = None →
        direct_file st.1 F y) ∧
  ∃ fl, NoDup fl ∧ (∀ y, y ∈ fl ↔ direct_file st.1 F y) ∧
        history st'.1 = history st.1 ++ (DeletedFile <$> fl).
Proof.
  unfold delete_files_inside.
  set (l := find_parent file_parent_id (fileitem st.1) (Some (Bson.str F))).
  destruct (delete_files_fold l st) as (Hfo & Hfi & Hhi). simpl.
  split; [done|]. split; [|split; [|split]].
  - apply map_subseteq_spec. intros y doc. rewrite Hfi. by case_decide.
  - intros y Hy%find_parent_direct_file. rewrite Hfi. by rewrite decide_True.
  - intros y [doc Hdoc]. rewrite Hfi. case_decide as Hin; [|congruence].
    intros _. by apply find_parent_direct_file.
  - exists l.*1. split; [apply find_parent_keys_NoDup|]. split; [|done].
    intros y. apply find_parent_direct_file.
Qed.

(** ** What a returned deletion has removed *)

Lemma removed_exactly_roots (S S' : ObjectId → Prop) d d' :
  (∀ c, S c ↔ S' c) → removed_exactly S d d' → removed_exactly S' d d'.
Proof.
  intros HS (Hfo & Hfi & Hb & Hb' & Hc & Hc').
  split; [done|]. split; [done|]. split; [|split; [|split]].
  - intros c x Hr. apply Hb. by apply HS.
  - intros c y Hr. apply Hb'. by apply HS.
  - intros x Hx Hn. destruct (Hc x Hx Hn) as (c & ? & ?). exists c.
    split; [by apply HS|done].
  - intros y Hy Hn. destruct (Hc' y Hy Hn) as (c & ? & ?). exists c.
    split; [by apply HS|done].
Qed.

Lemma removed_exactly_refl d : removed_exactly (λ _, False) d d.
Proof.
  split; [done|]. split; [done|]. split; [|split; [|split]]; try done.
  - intros x [doc Hx] Hn. congruence.
  - intros y [doc Hy] Hn. congruence.
Qed.

(** A path of the tree either survives a removal or runs into a
    removed subtree. *)
Lemma in_subtree_after_removal S d d1 c g :
  removed_exactly S d d1 →
  in_subtree (folder d) c g →
  in_subtree (folder d1) c g ∨ ∃ c0, S c0 ∧ in_subtree (folder d) c0 g.
Proof.
  intros (Hfo & _ & _ & _ & Hc & _). unfold in_subtree. revert g.
  refine (rtc_ind_r _ c _ _); [left; apply rtc_refl|].
  intros q g Hcq Hqg [IH|(c0 & Hc0 & Hq)].
  - destruct (folder d1 !! g) as [doc|] eqn:Hg.
    + left. eapply rtc_r; [done|]. eapply child_keep; eauto.
    + right. destruct (Hc g) as (c0 & ? & ?); [by eapply child_exists|done|].
      by exists c0.
  - right. exists c0. split; [done|]. by eapply rtc_r.
Qed.

Lemma file_under_weaken d d' F y :
  folder d' ⊆ folder d → fileitem d' ⊆ fileitem d →
  file_under d' F y → file_under d F y.
Proof.
  intros Hfo Hfi (g & Hg & doc & Hy & Hp). exists g.
  split; [by eapply in_subtree_weaken|]. exists doc.
  split; [by eapply lookup_weaken|done].
Qed.

Lemma removed_exactly_then S d d1 d2 c :
  removed_exactly S d d1 →
  removed_exactly (λ r, r = c) d1 d2 →
  removed_exactly (λ r, S r ∨ r = c) d d2.
Proof.
  intros H1 H2.
  pose proof H1 as (Hfo1 & Hfi1 & Hb1 & Hb1' & Hc1 & Hc1').
  pose proof H2 as (Hfo2 & Hfi2 & Hb2 & Hb2' & Hc2 & Hc2').
  split; [by etrans|]. split; [by etrans|]. split; [|split; [|split]].
  - intros r x [Hr| ->] Hx.
    + eapply lookup_weaken_None; [|done]. by eapply Hb1.
    + destruct (in_subtree_after_removal _ _ _ _ _ H1 Hx) as [Hx1|(c0 & ? & ?)].
      * by eapply Hb2.
      * eapply lookup_weaken_None; [|done]. by eapply Hb1.
  - intros r y [Hr| ->] Hy.
    + eapply lookup_weaken_None; [|done]. by eapply Hb1'.
    + destruct Hy as (g & Hg & doc & Hy & Hp).
      destruct (in_subtree_after_removal _ _ _ _ _ H1 Hg) as [Hg1|(c0 & ? & ?)].
      * destruct (fileitem d1 !! y) as [doc1|] eqn:Hy1;
          [|by eapply lookup_weaken_None].
        apply (Hb2' c y eq_refl). exists g. split; [done|]. exists doc.
        split; [|done]. rewrite Hy1. f_equal.
        pose proof (lookup_weaken _ _ _ _ Hy1 Hfi1). congruence.
      * eapply lookup_weaken_None; [|done]. apply (Hb1' c0); [done|].
        exists g. split; [done|]. by exists doc.
  - intros x Hx Hn. destruct (folder d1 !! x) as [doc1|] eqn:Hx1.
    + destruct (Hc2 x) as (r & Heq & Hr); [by rewrite Hx1|done|].
      exists r. split; [by right|]. by eapply in_subtree_weaken.
    + destruct (Hc1 x Hx Hx1) as (r & ? & ?). exists r. split; [by left|done].
  - intros y Hy Hn. destruct (fileitem d1 !! y) as [doc1|] eqn:Hy1.
    + destruct (Hc2' y) as (r & Heq & Hr); [by rewrite Hy1|done|].
      exists r. split; [by right|]. by eapply file_under_weaken.
    + destruct (Hc1' y Hy Hy1) as (r & ? & ?). exists r. split; [by left|done].
Qed.

Lemma children_loop_removes fuel :
  (∀ F st st', delete_folder_recursive fuel F st = Some st' →
               removed_exactly (λ r, r = F) st.1 st'.1) →
  ∀ (subs : list (ObjectId * Folder)) S d0 st st',
    removed_exactly S d0 st.1 →
    foldl (λ acc sub, acc ≫= delete_folder_recursive fuel sub.1) (Some st) subs
    = Some st' →
    removed_exactly (λ r, S r ∨ r ∈ subs.*1) d0 st'.1.
Proof.
  intros IH subs. induction subs as [|sub subs IHsubs]; intros S d0 st st' HS.
  - simpl. intros [= <-]. eapply removed_exactly_roots; [|done].
    intros c. rewrite elem_of_nil. tauto.
  - simpl. destruct (delete_folder_recursive fuel sub.1 st) as [st1|] eqn:Hsub;
      [|by rewrite foldl_bind_None].
    intros Hrest.
    pose proof (removed_exactly_then _ _ _ _ _ HS (IH _ _ _ Hsub)) as H1.
    eapply removed_exactly_roots; [|by eapply IHsubs].
    intros c. simpl. rewrite elem_of_cons. tauto.
Qed.

(** Whenever [delete_folder_recursive] returns, the folders of the
    subtree of [F] and the files inside them are gone, and every other
    record is as it was. *)
Lemma delete_folder_recursive_removes fuel :
  ∀ F st st', delete_folder_recursive fuel F st = Some st' →
              removed_exactly (λ r, r = F) st.1 st'.1.
Proof.
  induction fuel as [|fuel IH]; intros F st st'; [done|]. simpl.
  destruct (delete_files_inside_spec F st) as (Hfo1 & Hfi1 & Hdir & Hrem & _).
  set (st1 := delete_files_inside F st) in *.
  set (subs := find_parent folder_parent_id (folder st1.1) (Some (Bson.str F))).
  destruct (foldl _ (Some st1) subs) as [st2|] eqn:Hloop; [|done].
  intros [= <-]. simpl.
  pose proof (children_loop_removes fuel IH subs _ _ _ _
                (removed_exactly_refl st1.1) Hloop)
    as (Hfo2 & Hfi2 & Hb & Hb' & Hc & Hc').
  assert (∀ c, c ∈ subs.*1 ↔ child (folder st.1) F c) as Hsubs.
  { intros c. unfold subs. rewrite find_parent_child. by rewrite Hfo1. }
  split; [|split; [|split; [|split; [|split]]]].
  - simpl. etrans; [apply delete_subseteq|]. by rewrite <- Hfo1.
  - simpl. by etrans.
  - intros r x -> Hx. simpl. apply lookup_delete_None.
    apply rtc_inv in Hx as [->|(c & Hc1 & Hcx)]; [by left|right].
    apply (Hb c); [right; by apply Hsubs|]. by rewrite Hfo1.
  - intros r y -> (g & Hg & doc & Hy & Hp). simpl.
    destruct (fileitem st1.1 !! y) as [doc1|] eqn:Hy1;
      [|by eapply lookup_weaken_None].
    apply rtc_inv in Hg as [->|(c & Hc1 & Hcg)].
    + rewrite Hdir in Hy1; [done|]. by exists doc.
    + apply (Hb' c); [right; by apply Hsubs|]. exists g.
      split; [by rewrite Hfo1|]. exists doc. split; [|done].
      rewrite Hy1. f_equal. pose proof (lookup_weaken _ _ _ _ Hy1 Hfi1). congruence.
  - intros x Hx Hn. simpl in Hn. apply lookup_delete_None in Hn as [<-|Hn].
    + exists F. split; [done|]. apply rtc_refl.
    + destruct (Hc x) as (c & [[]|Hcs] & Hcx); [by rewrite Hfo1|done|].
      exists F. split; [done|]. eapply rtc_l; [by apply Hsubs|]. by rewrite <- Hfo1.
  - intros y Hy Hn. simpl in Hn. exists F. split; [done|].
    destruct (fileitem st1.1 !! y) as [doc1|] eqn:Hy1.
    + destruct (Hc' y) as (c & [[]|Hcs] & Hcy); [by rewrite Hy1|done|].
      apply (file_under_weaken st.1) in Hcy; [|by rewrite Hfo1|done].
      destruct Hcy as (g & Hg & Hd). exists g. split; [|done].
      eapply rtc_l; [by apply Hsubs|done].
    + exists F. split; [apply rtc_refl|]. by apply Hrem.
Qed.

(** ** Fuel *)






(** ** Frame *)

Lemma removed_exactly_folder_frame S d d' x :
  removed_exactly S d d' →
  (∀ c, S c → ¬ in_subtree (folder d) c x) →
  folder d' !! x = folder d !! x.
Proof.
  intros (Hfo & _ & _ & _ & Hrem & _) Hout.
  destruct (folder d !! x) as [doc|] eqn:Hx; [|by eapply lookup_weaken_None].
  destruct (folder d' !! x) as [doc'|] eqn:Hx'.
  - pose proof (lookup_weaken _ _ _ _ Hx' Hfo). congruence.
  - destruct (Hrem x) as (c & Hc & Hcx); [by rewrite Hx|done|]. by destruct (Hout c).
Qed.

Lemma removed_exactly_file_frame S d d' y :
  removed_exactly S d d' →
  (∀ c, S c → ¬ file_under d c y) →
  fileitem d' !! y = fileitem d !! y.
Proof.
  intros (_ & Hfi & _ & _ & _ & Hrem) Hout.
  destruct (fileitem d !! y) as [doc|] eqn:Hy; [|by eapply lookup_weaken_None].
  destruct (fileitem d' !! y) as [doc'|] eqn:Hy'.
  - pose proof (lookup_weaken _ _ _ _ Hy' Hfi). congruence.
  - destruct (Hrem y) as (c & Hc & Hcy); [by rewrite Hy|done|]. by destruct (Hout c).
Qed.

(** ** The order of the deletions *)







(** ** Deleting a folder *)








(** C10.  Whatever [delete_item] on the folder [k] returns, every folder
    record outside the subtree of [k] and every file record that lies in
    no folder of that subtree is as it was; a record that is gone was in
    the subtree, and no record was added or changed. *)
Theorem delete_item_folder_frame (fuel : nat) (d : Database) (fs : gmap string Blob)
    (item_id : string) (k : ObjectId)
    (r : outcome Status) (db' : option Database) (fs' : gmap string Blob) :
  Bson.parse item_id = Some k →
  delete_item fuel (Some d) fs item_id folder_type = Some (r, db', fs') →
  ∃ d', db' = Some d' ∧
    (∀ x, ¬ in_subtree (folder d) k x → folder d' !! x = folder d !! x) ∧
    (∀ y, ¬ file_under d k y → fileitem d' !! y = fileitem d !! y) ∧
    (∀ x, is_Some (folder d !! x) → folder d' !! x = None →
          in_subtree (folder d) k x) ∧
    (∀ y, is_Some (fileitem d !! y) → fileitem d' !! y = None → file_under d k y) ∧
    folder d' ⊆ folder d ∧ fileitem d' ⊆ fileitem d.
Proof.
  intros Hp. unfold delete_item. rewrite (oid_parse _ _ Hp). simpl.
  destruct (folder d !! k) as [doc|] eqn:Hk.
  - destruct (delete_folder_recursive fuel k (d, fs)) as [[d1 fs1]|] eqn:Hrec;
      [|done].
    intros [= <- <- <-]. exists d1. split; [done|].
    pose proof (delete_folder_recursive_removes _ _ _ _ Hrec) as Hrem.
    pose proof Hrem as (Hfo & Hfi & _ & _ & Hc & Hc'). simpl in *.
    split; [|split; [|split; [|split]]].
    + intros x Hx. eapply removed_exactly_folder_frame; [done|]. by intros c ->.
    + intros y Hy. eapply removed_exactly_file_frame; [done|]. by intros c ->.
    + intros x Hx Hn. by destruct (Hc x Hx Hn) as (c & -> & ?).
    + intros y Hy Hn. by destruct (Hc' y Hy Hn) as (c & -> & ?).
    + done.
  - intros [= <- <- <-]. exists d. split; [done|].
    split; [done|]. split; [done|]. split; [|split; [|done]].
    + intros x [? Hx] Hn. congruence.
    + intros y [? Hy] Hn. congruence.
Qed.

Lemma in_subtree_cases col F x :
  in_subtree col F x ↔ x = F ∨ tc (child col) F x.
Proof.
  unfold in_subtree. rewrite rtc_tc. split; (intros [?|?]; [by left|by right]).
Qed.


(** ** The sample drive *)

Section SampleDrive.
Import Sample.

Lemma docs_db_child p c : child (folder docs_db) p c ↔ p = idA ∧ c = idB.
Proof.
  split.
  - intros (doc & Hc & Hp). unfold docs_db in Hc. simpl in Hc.
    apply lookup_insert_Some in Hc as [[<- <-]|[_ Hc]]; [done|].
    apply lookup_insert_Some in Hc as [[<- <-]|[_ Hc]].
    + split; [|done]. apply str_inj. by injection Hp.
    + apply lookup_singleton_Some in Hc as [<- <-]. done.
  - intros [-> ->]. exists sub. split; vm_compute; reflexivity.
Qed.

Lemma docs_db_descendant x : tc (child (folder docs_db)) idA x ↔ x = idB.
Proof.
  split.
  - intros (z & _ & [_ ->]%docs_db_child)%tc_last_step. done.
  - intros ->. apply tc_once. by apply docs_db_child.
Qed.


Lemma docs_db_direct_file g y :
  direct_file docs_db g y ↔
  (g = idA ∧ y = idX) ∨ (g = idB ∧ y = idY) ∨ (g = idC ∧ y = idZ).
Proof.
  split.
  - intros (doc & Hy & Hp). unfold docs_db in Hy. simpl in Hy.
    apply lookup_insert_Some in Hy as [[<- <-]|[_ Hy]].
    { left. split; [|done]. apply str_inj. by injection Hp. }
    apply lookup_insert_Some in Hy as [[<- <-]|[_ Hy]].
    { right; left. split; [|done]. apply str_inj. by injection Hp. }
    apply lookup_singleton_Some in Hy as [<- <-].
    right; right. split; [|done]. apply str_inj. by injection Hp.
  - intros [[-> ->]|[[-> ->]|[-> ->]]]; eexists; split; vm_compute; reflexivity.
Qed.

Lemma docs_db_other_outside : ¬ in_subtree (folder docs_db) idA idC.
Proof.
  intros [Heq|Hd%docs_db_descendant]%in_subtree_cases; discriminate.
Qed.

Lemma docs_db_c_txt_outside : ¬ file_under docs_db idA idZ.
Proof.
  intros (g & Hg & [[_ Heq]|[[_ Heq]|[-> _]]]%docs_db_direct_file);
    [discriminate Heq..|].
  by apply docs_db_other_outside.
Qed.
End SampleDrive.


Lemma delete_item_folder_frame_witness :
  ∃ d',
    (delete_item 3 (Some Sample.docs_db) Sample.docs_disk
       "aaaaaaaaaaaaaaaaaaaaaaaa" folder_type) = Some (Ok status_ok, Some d',
       delete "/srv/uploads/1.5_a.txt" Sample.docs_disk) ∧
    folder d' !! Sample.idC = Some Sample.other ∧
    fileitem d' !! Sample.idZ = Some Sample.c_in_other.
Proof.
  destruct (delete_item 3 (Some Sample.docs_db) Sample.docs_disk
              "aaaaaaaaaaaaaaaaaaaaaaaa" folder_type)
    as [[[r db'] fs']|] eqn:Hrun; [|vm_compute in Hrun; discriminate Hrun].
  destruct (delete_item_folder_frame 3 Sample.docs_db Sample.docs_disk
              "aaaaaaaaaaaaaaaaaaaaaaaa" Sample.idA r db' fs')
    as (d' & -> & Hfo & Hfi & _).
  - vm_compute. reflexivity.
  - exact Hrun.
  - exists d'. split; [|split].
    + vm_compute in Hrun. injection Hrun as <- <- <-. f_equal.
    + rewrite (Hfo Sample.idC docs_db_other_outside). vm_compute. reflexivity.
    + rewrite (Hfi Sample.idZ docs_db_c_txt_outside). vm_compute. reflexivity.
Defined.

(** Deleting Docs on the sample drive: a.txt first, then the whole of
    Sub (b.txt, then Sub), then Docs; b.txt stays on the disk, since its
    removal raised, and its record is deleted all the same. *)
Example delete_docs_history :
  ∃ d',
    delete_item 2 (Some Sample.docs_db) Sample.docs_disk
      "aaaaaaaaaaaaaaaaaaaaaaaa" folder_type
    = Some (Ok status_ok, Some d',
            delete "/srv/uploads/1.5_a.txt" Sample.docs_disk) ∧
    history d' = [DeletedFile Sample.idX; DeletedFile Sample.idY;
                  DeletedFolder Sample.idB; DeletedFolder Sample.idA] ∧
    folder d' = {[ Sample.idC := Sample.other ]} ∧
    fileitem d' = {[ Sample.idZ := Sample.c_in_other ]}.
Proof.
  eexists. split; [vm_compute; reflexivity|].
  split; [reflexivity|]. split; vm_compute; reflexivity.
Qed.


(** * Further properties of the handlers *)

(** ** Identifiers *)







Lemma oid_Some_inv s k : oid (Some s) = Ok (Some k) → Bson.parse s = Some k.
Proof.
  unfold oid. simpl. destruct (Py.truthy s); simpl; [|done].
  destruct (Bson.parse s); [|done]. by intros [= ->].
Qed.




(** ** Listing *)

#[local] Instance folder_by_name_total : Total folder_by_name.
Proof. intros a b. apply (total String.le). Qed.

#[local] Instance folder_by_name_trans : Transitive folder_by_name.
Proof. intros a b c. unfold folder_by_name. apply transitivity. Qed.

#[local] Instance file_by_name_total : Total file_by_name.
Proof.
  intros a b. unfold file_by_name.
  destruct (file_name a.2), (file_name b.2); simpl; auto.
  apply (total String.le).
Qed.

#[local] Instance file_by_name_trans : Transitive file_by_name.
Proof.
  intros a b c. unfold file_by_name.
  destruct (file_name a.2), (file_name b.2), (file_name c.2); simpl; try done.
  apply transitivity.
Qed.

#[local] Instance str_Inj : Inj (=) (=) Bson.str.
Proof. intros p q. apply str_inj. Qed.

Lemma map_fmap {A B} (f : A → B) (l : list A) : map f l = f <$> l.
Proof. by induction l as [|x l IH]; simpl; [|rewrite IH]. Qed.

Lemma serialized_folder_ids (l : list (ObjectId * Folder)) :
  fj_id <$> ((λ f, serialize_folder f.1 f.2) <$> l) = Bson.str <$> l.*1.
Proof. induction l as [|x l IH]; [done|]. rewrite !fmap_cons. by f_equal. Qed.

Lemma serialized_file_ids (l : list (ObjectId * FileItem)) :
  xj_id <$> ((λ f, serialize_file f.1 f.2) <$> l) = Bson.str <$> l.*1.
Proof. induction l as [|x l IH]; [done|]. rewrite !fmap_cons. by f_equal. Qed.

Lemma list_items_Ok d p :
  list_items (Some d) p
  = Ok (mkListing
          ((λ f, serialize_folder f.1 f.2)
             <$> merge_sort folder_by_name
                   (find_parent folder_parent_id (folder d) (Py.or_None p)))
          ((λ f, serialize_file f.1 f.2)
             <$> merge_sort file_by_name
                   (find_parent file_parent_id (fileitem d) (Py.or_None p)))).
Proof. unfold list_items. by rewrite !map_fmap. Qed.

Lemma listed_folder_elem d p j :
  j ∈ (λ f, serialize_folder f.1 f.2)
        <$> merge_sort folder_by_name
              (find_parent folder_parent_id (folder d) (Py.or_None p)) ↔
  ∃ k doc, j = serialize_folder k doc ∧ folder d !! k = Some doc ∧
           folder_parent_id doc = Py.or_None p.
Proof.
  rewrite list_elem_of_fmap. split.
  - intros ([k doc] & -> & H). rewrite merge_sort_Permutation in H.
    apply find_parent_elem in H. by exists k, doc.
  - intros (k & doc & -> & H). exists (k, doc). split; [done|].
    rewrite merge_sort_Permutation. by apply find_parent_elem.
Qed.

Lemma listed_file_elem d p j :
  j ∈ (λ f, serialize_file f.1 f.2)
        <$> merge_sort file_by_name
              (find_parent file_parent_id (fileitem d) (Py.or_None p)) ↔
  ∃ k doc, j = serialize_file k doc ∧ fileitem d !! k = Some doc ∧
           file_parent_id doc = Py.or_None p.
Proof.
  rewrite list_elem_of_fmap. split.
  - intros ([k doc] & -> & H). rewrite merge_sort_Permutation in H.
    apply find_parent_elem in H. by exists k, doc.
  - intros (k & doc & -> & H). exists (k, doc). split; [done|].
    rewrite merge_sort_Permutation. by apply find_parent_elem.
Qed.

(** X2.  [list_items] answers, for the folders and for the files alike:
    the serialized documents whose stored parent is the one asked for
    (the empty string asks for the root, as [None] does), each one once,
    in ascending order of name. *)
Theorem list_items_listing (d : Database) (p : option string) :
  ∃ l, list_items (Some d) p = Ok l ∧
    (∀ j, j ∈ folders l ↔
          ∃ k doc, j = serialize_folder k doc ∧ folder d !! k = Some doc ∧
                   folder_parent_id doc = Py.or_None p) ∧
    (∀ j, j ∈ files l ↔
          ∃ k doc, j = serialize_file k doc ∧ fileitem d !! k = Some doc ∧
                   file_parent_id doc = Py.or_None p) ∧
    NoDup (fj_id <$> folders l) ∧ NoDup (xj_id <$> files l) ∧
    StronglySorted (λ a b, String.le (fj_name a) (fj_name b)) (folders l) ∧
    StronglySorted (λ a b, opt_name_le (xj_name a) (xj_name b)) (files l).
Proof.
  eexists. split; [apply list_items_Ok|]. simpl.
  split; [|split; [|split; [|split; [|split]]]].
  - apply listed_folder_elem.
  - apply listed_file_elem.
  - rewrite serialized_folder_ids. apply NoDup_fmap_2; [apply _|].
    rewrite merge_sort_Permutation. apply find_parent_keys_NoDup.
  - rewrite serialized_file_ids. apply NoDup_fmap_2; [apply _|].
    rewrite merge_sort_Permutation. apply find_parent_keys_NoDup.
  - eapply StronglySorted_fmap; [|apply (StronglySorted_merge_sort folder_by_name)].
    by intros x y.
  - eapply StronglySorted_fmap; [|apply (StronglySorted_merge_sort file_by_name)].
    by intros x y.
Qed.


(** ** Creating a folder *)



(** ** Renaming *)

Lemma child_by_parent col p c :
  child col p c ↔ folder_parent_id <$> col !! c = Some (Some (Bson.str p)).
Proof.
  unfold child. split.
  - intros (doc & -> & <-). done.
  - destruct (col !! c) as [doc|]; [|done]. intros [= H]. by exists doc.
Qed.

Lemma direct_file_by_parent d g y :
  direct_file d g y ↔ file_parent_id <$> fileitem d !! y = Some (Some (Bson.str g)).
Proof.
  unfold direct_file. split.
  - intros (doc & -> & <-). done.
  - destruct (fileitem d !! y) as [doc|]; [|done]. intros [= H]. by exists doc.
Qed.

Lemma rename_item_cases d now payload r db' :
  rename_item (Some d) now payload = (r, db') →
  (db' = Some d ∧ ∀ j, r ≠ Ok j) ∨
  (∃ k doc, folder d !! k = Some doc ∧ Bson.parse (rn_id payload) = Some k ∧
            rn_type payload = folder_type ∧
            r = Ok (inl (serialize_folder k
                           (mkFolder (Py.strip (rn_name payload))
                              (folder_parent_id doc) (folder_created_at doc) now))) ∧
            db' = Some (mkDatabase
                          (<[k := mkFolder (Py.strip (rn_name payload))
                                    (folder_parent_id doc) (folder_created_at doc) now]>
                             (folder d))
                          (fileitem d) (history d))) ∨
  (∃ k doc, fileitem d !! k = Some doc ∧ Bson.parse (rn_id payload) = Some k ∧
            rn_type payload = file ∧
            r = Ok (inr (serialize_file k
                           (mkFileItem (Some (Py.strip (rn_name payload)))
                              (file_parent_id doc) (file_size doc) (file_mime_type doc)
                              (file_storage_path doc) (file_created_at doc) now))) ∧
            db' = Some (mkDatabase (folder d)
                          (<[k := mkFileItem (Some (Py.strip (rn_name payload)))
                                    (file_parent_id doc) (file_size doc)
                                    (file_mime_type doc) (file_storage_path doc)
                                    (file_created_at doc) now]> (fileitem d))
                          (history d))).
Proof.
  unfold rename_item. simpl.
  destruct (Py.truthy (Py.strip (rn_name payload))); simpl;
    [|intros [= <- <-]; by left].
  destruct (oid (Some (rn_id payload))) as [[k|]| |] eqn:Hoid;
    [| |intros [= <- <-]; by left..].
  - apply oid_Some_inv in Hoid. destruct (rn_type payload) eqn:Hty; simpl.
    + destruct (fileitem d !! k) as [doc|] eqn:Hk; [|intros [= <- <-]; by left].
      intros [= <- <-]. right; right. by exists k, doc.
    + destruct (folder d !! k) as [doc|] eqn:Hk; [|intros [= <- <-]; by left].
      intros [= <- <-]. right; left. by exists k, doc.
  - destruct (rn_type payload); simpl; intros [= <- <-]; by left.
Qed.

(** X4.  [rename_item] never moves, adds or removes anything: whatever
    it answers, the same identifiers are stored, every folder and file
    keeps its parent, every file keeps its size, type and stored path, and
    the parent-child relation and the history of deletions are as
    before. *)
Theorem rename_item_keeps_tree (d : Database) (now : datetime)
    (payload : RenameRequest) (r : outcome (FolderJson + FileJson))
    (db' : option Database) :
  rename_item (Some d) now payload = (r, db') →
  ∃ d', db' = Some d' ∧
    dom (folder d') = dom (folder d) ∧ dom (fileitem d') = dom (fileitem d) ∧
    history d' = history d ∧
    (∀ x, folder_parent_id <$> folder d' !! x = folder_parent_id <$> folder d !! x) ∧
    (∀ y, (λ f, (file_parent_id f, file_size f, file_mime_type f, file_storage_path f))
            <$> fileitem d' !! y
          = (λ f, (file_parent_id f, file_size f, file_mime_type f, file_storage_path f))
            <$> fileitem d !! y) ∧
    (∀ p c, child (folder d') p c ↔ child (folder d) p c) ∧
    (∀ g y, direct_file d' g y ↔ direct_file d g y).
Proof.
  intros H.
  assert (∃ d', db' = Some d' ∧
    history d' = history d ∧
    (∀ x, folder_parent_id <$> folder d' !! x = folder_parent_id <$> folder d !! x) ∧
    (∀ y, (λ f, (file_parent_id f, file_size f, file_mime_type f, file_storage_path f))
            <$> fileitem d' !! y
          = (λ f, (file_parent_id f, file_size f, file_mime_type f, file_storage_path f))
            <$> fileitem d !! y)) as (d' & -> & Hh & Hfo & Hfi).
  { destruct (rename_item_cases _ _ _ _ _ H)
      as [[-> _]|[(k & doc & Hk & _ & _ & _ & ->)|(k & doc & Hk & _ & _ & _ & ->)]].
    - by exists d.
    - eexists. split; [done|]. simpl. split; [done|]. split; [|done].
      intros x. destruct (decide (k = x)) as [<-|Hne].
      + by rewrite lookup_insert_eq, Hk.
      + by rewrite lookup_insert_ne.
    - eexists. split; [done|]. simpl. split; [done|]. split; [done|].
      intros y. destruct (decide (k = y)) as [<-|Hne].
      + by rewrite lookup_insert_eq, Hk.
      + by rewrite lookup_insert_ne. }
  exists d'. split; [done|].
  split; [|split; [|split; [done|split; [done|split; [done|split]]]]].
  - apply set_eq. intros x. rewrite !elem_of_dom, <- !(fmap_is_Some folder_parent_id).
    by rewrite Hfo.
  - apply set_eq. intros y. rewrite !elem_of_dom.
    rewrite <- !(fmap_is_Some
      (λ f, (file_parent_id f, file_size f, file_mime_type f, file_storage_path f))).
    by rewrite Hfi.
  - intros p c. by rewrite !child_by_parent, Hfo.
  - intros g y. rewrite !direct_file_by_parent.
    specialize (Hfi y).
    destruct (fileitem d' !! y), (fileitem d !! y); simpl in *; try done.
    injection Hfi as -> _ _ _. done.
Qed.

Lemma rename_item_keeps_tree_witness :
  ∃ d', (rename_item (Some Sample.docs_db) 9%Z
           (mkRenameRequest "bbbbbbbbbbbbbbbbbbbbbbbb" folder_type " Papers ")).2
        = Some d' ∧
        dom (folder d') = dom (folder Sample.docs_db) ∧
        (child (folder d') Sample.idA Sample.idB ↔
         child (folder Sample.docs_db) Sample.idA Sample.idB).
Proof.
  destruct (rename_item_keeps_tree Sample.docs_db 9%Z
              (mkRenameRequest "bbbbbbbbbbbbbbbbbbbbbbbb" folder_type " Papers ")
              (rename_item (Some Sample.docs_db) 9%Z
                 (mkRenameRequest "bbbbbbbbbbbbbbbbbbbbbbbb" folder_type " Papers ")).1
              (rename_item (Some Sample.docs_db) 9%Z
                 (mkRenameRequest "bbbbbbbbbbbbbbbbbbbbbbbb" folder_type " Papers ")).2)
    as (d' & Hd' & Hdom & _ & _ & _ & _ & Hch & _).
  - apply surjective_pairing.
  - exists d'. split; [exact Hd'|]. split; [exact Hdom|]. apply Hch.
Defined.




(** X6.  After [rename_item] answered ok with a record, [list_items] on
    that record's parent shows the record under its new, stripped name,
    and shows no other entry with its identifier. *)
Theorem rename_item_then_list (d : Database) (now : datetime)
    (payload : RenameRequest) (j : FolderJson + FileJson) (db' : option Database) :
  rename_item (Some d) now payload = (Ok j, db') →
  match j with
  | inl fj =>
      fj_name fj = Py.strip (rn_name payload) ∧
      (fj_parent_id fj ≠ Some "" →
       ∃ l, list_items db' (fj_parent_id fj) = Ok l ∧ fj ∈ folders l ∧
            ∀ j', j' ∈ folders l → fj_id j' = fj_id fj → j' = fj)
  | inr xj =>
      xj_name xj = Some (Py.strip (rn_name payload)) ∧
      (xj_parent_id xj ≠ Some "" →
       ∃ l, list_items db' (xj_parent_id xj) = Ok l ∧ xj ∈ files l ∧
            ∀ j', j' ∈ files l → xj_id j' = xj_id xj → j' = xj)
  end.
Proof.
  intros H.
  assert (∀ p : option string, p ≠ Some "" → Py.or_None p = p) as Hor.
  { intros [[|a s]|] Hp; try done. }
  destruct (rename_item_cases _ _ _ _ _ H)
    as [[_ Herr]|[(k & doc & Hk & _ & _ & Hr & ->)|(k & doc & Hk & _ & _ & Hr & ->)]].
  - by destruct (Herr j).
  - injection Hr as ->. split; [done|]. intros Hp. eexists.
    split; [apply list_items_Ok|]. cbn [folders]. split.
    + apply listed_folder_elem. eexists k, _. split; [done|].
      split; [apply lookup_insert_eq|]. by rewrite Hor.
    + intros j' (k' & doc' & -> & Hk' & _)%listed_folder_elem Hid.
      simpl in Hid, Hk'. apply str_inj in Hid as ->.
      rewrite lookup_insert_eq in Hk'. by injection Hk' as <-.
  - injection Hr as ->. split; [done|]. intros Hp. eexists.
    split; [apply list_items_Ok|]. cbn [files]. split.
    + apply listed_file_elem. eexists k, _. split; [done|].
      split; [apply lookup_insert_eq|]. by rewrite Hor.
    + intros j' (k' & doc' & -> & Hk' & _)%listed_file_elem Hid.
      simpl in Hid, Hk'. apply str_inj in Hid as ->.
      rewrite lookup_insert_eq in Hk'. by injection Hk' as <-.
Qed.


Lemma rename_item_then_list_witness :
  ∃ l, list_items
         (rename_item (Some Sample.docs_db) 9%Z
            (mkRenameRequest "bbbbbbbbbbbbbbbbbbbbbbbb" folder_type " Papers ")).2
         (Some "aaaaaaaaaaaaaaaaaaaaaaaa") = Ok l ∧
       serialize_folder Sample.idB
         (mkFolder "Papers" (Some "aaaaaaaaaaaaaaaaaaaaaaaa") 2%Z 9%Z) ∈ folders l.
Proof.
  pose proof (rename_item_then_list Sample.docs_db 9%Z
                (mkRenameRequest "bbbbbbbbbbbbbbbbbbbbbbbb" folder_type " Papers ")
                (inl (serialize_folder Sample.idB
                        (mkFolder "Papers" (Some "aaaaaaaaaaaaaaaaaaaaaaaa") 2%Z 9%Z)))
                (rename_item (Some Sample.docs_db) 9%Z
                   (mkRenameRequest "bbbbbbbbbbbbbbbbbbbbbbbb" folder_type " Papers ")).2)
    as H.
  destruct H as [_ H]; [vm_compute; reflexivity|].
  destruct H as (l & Hl & Hin & _); [discriminate|].
  exists l. split; [exact Hl|exact Hin].
Defined.

(** ** Stored names *)

Lemma names_trimmed_subseteq d d' :
  folder d' ⊆ folder d → fileitem d' ⊆ fileitem d →
  names_trimmed d → names_trimmed d'.
Proof.
  intros Hfo Hfi [Hf Hx]. split.
  - intros k doc Hk. eapply Hf. by eapply lookup_weaken.
  - intros k doc Hk. eapply Hx. by eapply lookup_weaken.
Qed.

(** X7.  The handlers that write a name after stripping it, and the one
    that deletes, keep the store well named: when every stored name is
    trimmed and non-empty, it is still so after [create_folder], after
    [rename_item] and after [delete_item], whatever they answer. *)
Theorem names_trimmed_preserved (d : Database) :
  names_trimmed d →
  (∀ now k payload r d',
     create_folder (Some d) now k payload = (r, Some d') → names_trimmed d') ∧
  (∀ now payload r d',
     rename_item (Some d) now payload = (r, Some d') → names_trimmed d') ∧
  (∀ fuel fs item_id type r d' fs',
     delete_item fuel (Some d) fs item_id type = Some (r, Some d', fs') →
     names_trimmed d').
Proof.
  intros Hd. split; [|split].
  - intros now k payload r d'. by apply create_folder_names_trimmed.
  - intros now payload r d'. by apply rename_item_names_trimmed.
  - intros fuel fs item_id type r d' fs'. unfold delete_item.
    destruct (oid (Some item_id)) as [[k|]| |]; destruct type; simpl;
      try (by intros [= _ <- _]).
    + destruct (fileitem d !! k) as [doc|]; [|by intros [= _ <- _]].
      intros [= _ <- _]. eapply names_trimmed_subseteq; [| |done]; simpl;
        [done|apply delete_subseteq].
    + destruct (folder d !! k) as [doc|]; [|by intros [= _ <- _]].
      destruct (delete_folder_recursive fuel k (d, fs)) as [[d1 fs1]|] eqn:Hrec;
        [|done].
      intros [= _ <- _].
      pose proof (delete_folder_recursive_removes _ _ _ _ Hrec) as (Hfo & Hfi & _).
      by eapply names_trimmed_subseteq.
Qed.

Lemma names_trimmed_preserved_witness : names_trimmed Sample2.docs_created_db.
Proof.
  destruct (names_trimmed_preserved Sample.empty_db) as (Hcreate & _ & _).
  - split; intros k doc H; vm_compute in H; discriminate H.
  - apply (Hcreate 5%Z Sample.idA (mkCreateFolderRequest "  Docs " None)
             (Ok (serialize_folder Sample.idA (mkFolder "Docs" None 5%Z 5%Z)))).
    vm_compute. reflexivity.
Defined.

(** ** Renaming and breadcrumbs *)

Lemma retitle_crumb k x doc res :
  mkCrumb (Bson.str x) (folder_name (if decide (x = k) then res else doc))
  = retitle k (folder_name res) (mkCrumb (Bson.str x) (folder_name doc)).
Proof.
  unfold retitle. simpl. destruct (decide (x = k)) as [->|Hne].
  - by rewrite decide_True.
  - rewrite decide_False; [done|]. by intros ?%str_inj.
Qed.

Lemma find_one_rename (col : gmap ObjectId Folder) k doc res ko :
  col !! k = Some doc →
  find_one (<[k := res]> col) ko
  = (λ c, (c.1, if decide (c.1 = k) then res else c.2)) <$> find_one col ko.
Proof.
  intros Hk. destruct ko as [x|]; [|done]. simpl.
  destruct (decide (k = x)) as [<-|Hne].
  - rewrite lookup_insert_eq, Hk. simpl. by rewrite decide_True.
  - rewrite lookup_insert_ne by done. destruct (col !! x); simpl; [|done].
    by rewrite decide_False.
Qed.

Lemma breadcrumbs_loop_rename col k doc res :
  col !! k = Some doc → folder_parent_id res = folder_parent_id doc →
  ∀ fuel ko crumbs,
    breadcrumbs_loop fuel (<[k := res]> col) (find_one (<[k := res]> col) ko)
      (retitle k (folder_name res) <$> crumbs)
    = option_map (outcome_map (fmap (retitle k (folder_name res))))
        (breadcrumbs_loop fuel col (find_one col ko) crumbs).
Proof.
  intros Hk Hpar fuel. induction fuel as [|fuel IH]; intros ko crumbs;
    rewrite (find_one_rename col k doc res ko Hk);
    destruct (find_one col ko) as [[x dx]|] eqn:Hcur; try done.
  assert (col !! x = Some dx) as Hx.
  { destruct ko as [x'|]; [|done]. simpl in Hcur.
    destruct (col !! x') eqn:Hx'; [|done]. by injection Hcur as -> ->. }
  simpl fmap. simpl breadcrumbs_loop.
  assert (folder_parent_id (if decide (x = k) then res else dx)
          = folder_parent_id dx) as ->.
  { destruct (decide (x = k)) as [->|]; [|done]. rewrite Hpar. congruence. }
  rewrite retitle_crumb.
  rewrite <- (fmap_cons (retitle k (folder_name res)) _ []), <- fmap_app.
  destruct (folder_parent_id dx) as [pid|]; simpl; [|done].
  destruct (Py.truthy pid); simpl; [|done].
  destruct (Bson.parse pid) as [p|]; [|done].
  apply (IH (Some p)).
Qed.

(** X8.  Renaming a folder changes the breadcrumbs by that name only:
    after [rename_item] answered ok on the folder [k], [get_breadcrumbs]
    answers for every folder what it answered before, with the new name
    in the crumb of [k]. *)
Theorem rename_item_then_breadcrumbs (d : Database) (now : datetime)
    (id n : string) (j : FolderJson + FileJson) (d' : Database) :
  rename_item (Some d) now (mkRenameRequest id folder_type n) = (Ok j, Some d') →
  ∃ k, Bson.parse id = Some k ∧
    ∀ fuel folder_id,
      get_breadcrumbs fuel (Some d') folder_id
      = option_map (outcome_map (fmap (retitle k (Py.strip n))))
          (get_breadcrumbs fuel (Some d) folder_id).
Proof.
  intros H.
  destruct (rename_item_cases _ _ _ _ _ H)
    as [[_ Herr]|[(k & doc & Hk & Hp & _ & _ & Hd')|(k & doc & _ & _ & Hty & _)]];
    [by destruct (Herr j)| |done].
  simpl in *. injection Hd' as ->. exists k. split; [done|].
  intros fuel folder_id. unfold get_breadcrumbs. cbn [folder].
  destruct (oid (Some folder_id)) as [ko| |]; [|done..].
  pose proof (breadcrumbs_loop_rename (folder d) k doc
                (mkFolder (Py.strip n) (folder_parent_id doc)
                   (folder_created_at doc) now) Hk eq_refl fuel ko []) as Hloop.
  cbn [folder_name fmap list_fmap] in Hloop. rewrite Hloop.
  destruct (breadcrumbs_loop fuel (folder d) (find_one (folder d) ko) [])
    as [[crumbs| |]|]; simpl; try done.
  by rewrite fmap_reverse.
Qed.

Lemma rename_item_then_breadcrumbs_witness :
  get_breadcrumbs 4 (Some Sample2.beta_db) "cccccccccccccccccccccccc"
  = Some (Ok [mkCrumb "aaaaaaaaaaaaaaaaaaaaaaaa" "A";
              mkCrumb "bbbbbbbbbbbbbbbbbbbbbbbb" "Beta";
              mkCrumb "cccccccccccccccccccccccc" "C"]).
Proof.
  destruct (rename_item_then_breadcrumbs Sample.three_levels_db 9%Z
              "bbbbbbbbbbbbbbbbbbbbbbbb" "Beta"
              (inl (serialize_folder Sample.idB
                      (mkFolder "Beta" (Some "aaaaaaaaaaaaaaaaaaaaaaaa") 0%Z 9%Z)))
              Sample2.beta_db) as (k & Hk & Hcr).
  - vm_compute. reflexivity.
  - rewrite Hcr. vm_compute in Hk. injection Hk as <-. vm_compute. reflexivity.
Defined.


(** ** Uploading *)

Lemma os_path_join_nonempty a b : b ≠ "" → Py.os_path_join a b ≠ "".
Proof.
  intros Hb. unfold Py.os_path_join.
  destruct (Py.starts_with_slash b); [done|].
  destruct (_ || _); destruct a; simpl; try done.
Qed.

Lemma stamped_name_nonempty stamp name : (stamp ++ "_" ++ name)%string ≠ "".
Proof. by destruct stamp. Qed.

Lemma upload_file_cases d fs cwd stamp now k parent_id fname data ctype r db' fs' :
  upload_file (Some d) fs cwd stamp now k parent_id fname data ctype = (r, db', fs') →
  let dest := Py.os_path_join (UPLOAD_DIR cwd) (stamp ++ "_" ++ fname)%string in
  let doc := mkFileItem (Some fname) (Py.or_None parent_id) (String.length data)
               (Some (if Py.truthy_opt ctype then default "" ctype
                      else "application/octet-stream"))
               (Some dest) now now in
  (r = Uncaught "FileNotFoundError" ∧ db' = Some d ∧ fs' = fs) ∨
  (fs' = <[dest := mkBlob data
                      (match fs !! dest with Some b => removable b | None => true end)]>
            fs ∧
   ((r = Uncaught "DuplicateKeyError" ∧ db' = Some d ∧ is_Some (fileitem d !! k)) ∨
    (r = Ok (serialize_file k doc) ∧ fileitem d !! k = None ∧
     db' = Some (mkDatabase (folder d) (<[k := doc]> (fileitem d)) (history d))))).
Proof.
  unfold upload_file, Os.write. simpl. case_bool_decide as Hdir.
  - unfold Os.getsize. rewrite lookup_insert_eq. simpl. unfold insert_one.
    destruct (fileitem d !! k) eqn:Hk; intros [= <- <- <-]; right;
      (split; [done|]).
    + left. eauto.
    + right. done.
  - intros [= <- <- <-]. by left.
Qed.

(** X9.  What [upload_file] stored, [download_file] gives back: after an
    ok upload under a generated identifier, downloading the identifier of
    the answer gives a response with the uploaded bytes, the file name as
    it was sent and the recorded type, and the recorded size is the
    number of bytes. *)
Theorem upload_then_download (d : Database) (fs : gmap string Blob)
    (cwd stamp : string) (now : datetime) (k : ObjectId) (parent_id : option string)
    (fname data : string) (ctype : option string)
    (rec : FileJson) (db' : option Database) (fs' : gmap string Blob) :
  canonical k →
  upload_file (Some d) fs cwd stamp now k parent_id fname data ctype
  = (Ok rec, db', fs') →
  ∃ resp, download_file db' fs' (xj_id rec) = Ok resp ∧
          response_body fs' resp = Some data ∧
          filename resp = fname ∧
          media_type resp = xj_mime_type rec ∧
          xj_mime_type rec ≠ Some "" ∧ xj_mime_type rec ≠ None ∧
          xj_size rec = String.length data.
Proof.
  intros Hk H.
  destruct (upload_file_cases _ _ _ _ _ _ _ _ _ _ _ _ _ H)
    as [(Hr & _)|(-> & [(Hr & _)|(Hr & Hfresh & ->)])]; [done..|].
  injection Hr as ->. simpl.
  unfold download_file. rewrite (oid_parse _ _ Hk). simpl.
  rewrite lookup_insert_eq. simpl.
  pose proof (os_path_join_nonempty (UPLOAD_DIR cwd) _
                (stamped_name_nonempty stamp fname)) as Hne%truthy_true.
  rewrite Hne. unfold Os.path_exists. rewrite lookup_insert_eq.
  rewrite bool_decide_eq_true_2 by eauto. simpl.
  eexists. split; [done|]. unfold response_body. simpl.
  rewrite lookup_insert_eq. simpl.
  repeat split; try done.
  destruct ctype as [[|a c]|]; simpl; done.
Qed.

Lemma upload_then_download_witness :
  ∃ resp,
    download_file
      (upload_file (Some Sample.docs_db) Sample.docs_disk "/srv" "9.5" 9%Z
         Sample.idA None "n.bin" "bytes" None).1.2
      (upload_file (Some Sample.docs_db) Sample.docs_disk "/srv" "9.5" 9%Z
         Sample.idA None "n.bin" "bytes" None).2
      "aaaaaaaaaaaaaaaaaaaaaaaa" = Ok resp ∧
    response_body
      (upload_file (Some Sample.docs_db) Sample.docs_disk "/srv" "9.5" 9%Z
         Sample.idA None "n.bin" "bytes" None).2 resp = Some "bytes" ∧
    filename resp = "n.bin" ∧
    media_type resp = Some "application/octet-stream".
Proof.
  destruct (upload_then_download Sample.docs_db Sample.docs_disk "/srv" "9.5" 9%Z
              Sample.idA None "n.bin" "bytes" None
              (serialize_file Sample.idA
                 (mkFileItem (Some "n.bin") None 5 (Some "application/octet-stream")
                    (Some "/srv/uploads/9.5_n.bin") 9%Z 9%Z))
              (upload_file (Some Sample.docs_db) Sample.docs_disk "/srv" "9.5" 9%Z
                 Sample.idA None "n.bin" "bytes" None).1.2
              (upload_file (Some Sample.docs_db) Sample.docs_disk "/srv" "9.5" 9%Z
                 Sample.idA None "n.bin" "bytes" None).2)
    as (resp & H1 & H2 & H3 & H4 & _).
  - vm_compute. reflexivity.
  - vm_compute. reflexivity.
  - exists resp. split; [exact H1|]. split; [exact H2|]. split; [exact H3|exact H4].
Defined.

(** X10.  [upload_file] writes the bytes before the record: it leaves
    the folders alone, touches no stored file but the one it writes, and
    creates a record only in answering ok, when the file it names is on
    the disk with the uploaded bytes.  When the bytes cannot be written
    nothing changes; a store in which every record has its file on the
    disk stays so. *)
Theorem upload_file_effect (d : Database) (fs : gmap string Blob)
    (cwd stamp : string) (now : datetime) (k : ObjectId) (parent_id : option string)
    (fname data : string) (ctype : option string)
    (r : outcome FileJson) (db' : option Database) (fs' : gmap string Blob) :
  upload_file (Some d) fs cwd stamp now k parent_id fname data ctype = (r, db', fs') →
  ∃ d', db' = Some d' ∧ folder d' = folder d ∧ history d' = history d ∧
    (∀ p, p ≠ Py.os_path_join (UPLOAD_DIR cwd) (stamp ++ "_" ++ fname)%string →
          fs' !! p = fs !! p) ∧
    (blobs_present d fs → blobs_present d' fs') ∧
    match r with
    | Ok rec =>
        fileitem d !! k = None ∧
        ∃ doc p b, fileitem d' = <[k := doc]> (fileitem d) ∧
                   rec = serialize_file k doc ∧
                   file_storage_path doc = Some p ∧ fs' !! p = Some b ∧
                   content b = data ∧ file_size doc = String.length data
    | Uncaught e =>
        fileitem d' = fileitem d ∧
        (e = "FileNotFoundError" → fs' = fs)
    | HTTPException _ _ => False
    end.
Proof.
  intros H.
  destruct (upload_file_cases _ _ _ _ _ _ _ _ _ _ _ _ _ H)
    as [(-> & -> & ->)|(-> & [(-> & -> & Hk)|(-> & Hfresh & ->)])].
  - exists d. by repeat split.
  - exists d. split; [done|]. split; [done|]. split; [done|].
    split; [by intros p Hp; rewrite lookup_insert_ne|]. split; [|by split].
    intros Hbl x doc Hx. destruct (Hbl x doc Hx) as (p & b' & Hp & Hfs).
    destruct (decide (Py.os_path_join (UPLOAD_DIR cwd) (stamp ++ "_" ++ fname)%string
                      = p)) as [<-|Hne].
    + eexists _, _. split; [done|]. apply lookup_insert_eq.
    + exists p, b'. by rewrite lookup_insert_ne.
  - eexists. split; [done|]. simpl. split; [done|]. split; [done|].
    split; [by intros p Hp; rewrite lookup_insert_ne|]. split.
    + intros Hbl x doc Hx. simpl in Hx.
      apply lookup_insert_Some in Hx as [[<- <-]|[Hxk Hx]].
      * eexists _, _. simpl. split; [done|]. apply lookup_insert_eq.
      * destruct (Hbl x doc Hx) as (p & b' & Hp & Hfs).
        destruct (decide (Py.os_path_join (UPLOAD_DIR cwd)
                            (stamp ++ "_" ++ fname)%string = p)) as [<-|Hne].
        -- eexists _, _. split; [done|]. apply lookup_insert_eq.
        -- exists p, b'. by rewrite lookup_insert_ne.
    + split; [done|]. eexists _, _, _. split; [done|]. split; [done|]. simpl.
      split; [done|]. split; [apply lookup_insert_eq|done].
Qed.

Lemma upload_file_effect_witness :
  ∃ d', (upload_file (Some Sample.docs_db) Sample.docs_disk "/srv" "9.5" 9%Z
           Sample.idA None "n.bin" "bytes" None).1.2 = Some d' ∧
        folder d' = folder Sample.docs_db ∧
        (upload_file (Some Sample.docs_db) Sample.docs_disk "/srv" "9.5" 9%Z
           Sample.idA None "n.bin" "bytes" None).2 !! "/srv/uploads/3.5_c.txt"
        = Sample.docs_disk !! "/srv/uploads/3.5_c.txt".
Proof.
  destruct (upload_file_effect Sample.docs_db Sample.docs_disk "/srv" "9.5" 9%Z
              Sample.idA None "n.bin" "bytes" None
              (upload_file (Some Sample.docs_db) Sample.docs_disk "/srv" "9.5" 9%Z
                 Sample.idA None "n.bin" "bytes" None).1.1
              (upload_file (Some Sample.docs_db) Sample.docs_disk "/srv" "9.5" 9%Z
                 Sample.idA None "n.bin" "bytes" None).1.2
              (upload_file (Some Sample.docs_db) Sample.docs_disk "/srv" "9.5" 9%Z
                 Sample.idA None "n.bin" "bytes" None).2)
    as (d' & Hd' & Hfo & _ & Hfs & _).
  - by destruct (upload_file _ _ _ _ _ _ _ _ _ _) as [[? ?] ?].
  - exists d'. split; [exact Hd'|]. split; [exact Hfo|]. apply Hfs. discriminate.
Defined.

(** X11.  Uploading and then deleting the file puts the store back:
    after an ok upload under a generated identifier, to a path that was
    free, [delete_item] on the identifier of the answer answers ok and
    leaves the folders, the file records and the disk as they were before
    the upload. *)
Theorem upload_then_delete (d : Database) (fs : gmap string Blob)
    (cwd stamp : string) (now : datetime) (k : ObjectId) (parent_id : option string)
    (fname data : string) (ctype : option string)
    (rec : FileJson) (db' : option Database) (fs' : gmap string Blob) (fuel : nat) :
  canonical k →
  fs !! Py.os_path_join (UPLOAD_DIR cwd) (stamp ++ "_" ++ fname)%string = None →
  upload_file (Some d) fs cwd stamp now k parent_id fname data ctype
  = (Ok rec, db', fs') →
  ∃ d'', delete_item fuel db' fs' (xj_id rec) file = Some (Ok status_ok, Some d'', fs) ∧
         folder d'' = folder d ∧ fileitem d'' = fileitem d ∧
         history d'' = history d ++ [DeletedFile k].
Proof.
  intros Hk Hfree H.
  destruct (upload_file_cases _ _ _ _ _ _ _ _ _ _ _ _ _ H)
    as [(Hr & _)|(-> & [(Hr & _)|(Hr & Hfresh & ->)])]; [done..|].
  injection Hr as ->. rewrite Hfree. simpl.
  unfold delete_item. rewrite (oid_parse _ _ Hk). simpl.
  rewrite lookup_insert_eq. unfold remove_from_disk. simpl.
  pose proof (os_path_join_nonempty (UPLOAD_DIR cwd) _
                (stamped_name_nonempty stamp fname)) as Hne%truthy_true.
  rewrite Hne. unfold Os.path_exists, Os.remove. rewrite lookup_insert_eq.
  rewrite bool_decide_eq_true_2 by eauto. simpl.
  rewrite delete_insert_eq, (delete_id _ _ Hfree).
  eexists. split; [done|]. simpl. split; [done|]. split; [|done].
  rewrite delete_insert_eq. by apply delete_id.
Qed.

Lemma upload_then_delete_witness :
  ∃ d'', delete_item 0
           (upload_file (Some Sample.docs_db) Sample.docs_disk "/srv" "9.5" 9%Z
              Sample.idA None "n.bin" "bytes" None).1.2
           (upload_file (Some Sample.docs_db) Sample.docs_disk "/srv" "9.5" 9%Z
              Sample.idA None "n.bin" "bytes" None).2
           "aaaaaaaaaaaaaaaaaaaaaaaa" file
         = Some (Ok status_ok, Some d'', Sample.docs_disk) ∧
         fileitem d'' = fileitem Sample.docs_db.
Proof.
  destruct (upload_then_delete Sample.docs_db Sample.docs_disk "/srv" "9.5" 9%Z
              Sample.idA None "n.bin" "bytes" None
              (serialize_file Sample.idA
                 (mkFileItem (Some "n.bin") None 5 (Some "application/octet-stream")
                    (Some "/srv/uploads/9.5_n.bin") 9%Z 9%Z))
              (upload_file (Some Sample.docs_db) Sample.docs_disk "/srv" "9.5" 9%Z
                 Sample.idA None "n.bin" "bytes" None).1.2
              (upload_file (Some Sample.docs_db) Sample.docs_disk "/srv" "9.5" 9%Z
                 Sample.idA None "n.bin" "bytes" None).2 0)
    as (d'' & H1 & _ & H2 & _).
  - vm_compute. reflexivity.
  - vm_compute. reflexivity.
  - vm_compute. reflexivity.
  - exists d''. split; [exact H1|exact H2].
Defined.


(** ** Deleting, again *)

Lemma find_parent_nil {D} (parent_of : D → option string)
    (col : gmap ObjectId D) (p : option string) :
  (∀ k doc, col !! k = Some doc → parent_of doc ≠ p) →
  find_parent parent_of col p = [].
Proof.
  intros Hno. apply elem_of_nil_inv. intros [k doc] [Hk Hp]%find_parent_elem.
  by apply (Hno k doc).
Qed.

Lemma delete_item_Ok_inv fuel d fs item_id type db' fs' :
  delete_item fuel (Some d) fs item_id type = Some (Ok status_ok, db', fs') →
  ∃ k, Bson.parse item_id = Some k ∧
    match type with
    | file => ∃ doc, fileitem d !! k = Some doc ∧
                     db' = Some (delete_one_file d k) ∧ fs' = remove_from_disk fs doc
    | folder_type => ∃ doc d', folder d !! k = Some doc ∧ db' = Some d' ∧
                               delete_folder_recursive fuel k (d, fs) = Some (d', fs')
    end.
Proof.
  unfold delete_item.
  destruct (oid (Some item_id)) as [[k|]| |] eqn:Hoid; destruct type; simpl;
    try (intros H; discriminate H).
  - apply oid_Some_inv in Hoid.
    destruct (fileitem d !! k) as [doc|] eqn:Hk; [|intros H; discriminate H].
    intros [= <- <-]. exists k. split; [done|]. by exists doc.
  - apply oid_Some_inv in Hoid.
    destruct (folder d !! k) as [doc|] eqn:Hk; [|intros H; discriminate H].
    destruct (delete_folder_recursive fuel k (d, fs)) as [[d1 fs1]|] eqn:Hrec;
      [|intros H; discriminate H].
    intros [= <- <-]. exists k. split; [done|]. by exists doc, d1.
Qed.

Lemma delete_item_missing fuel d fs item_id type k :
  Bson.parse item_id = Some k →
  match type with
  | file => fileitem d !! k = None
  | folder_type => folder d !! k = None
  end →
  delete_item fuel (Some d) fs item_id type
  = Some (HTTPException 404
            (match type with
             | file => "File not found"
             | folder_type => "Folder not found"
             end), Some d, fs).
Proof.
  intros Hp Hk. unfold delete_item. rewrite (oid_parse _ _ Hp).
  destruct type; simpl; by rewrite Hk.
Qed.



(** X13.  A deleted item is gone: after [delete_item] answered ok, the
    same request answers 404 and changes nothing, whatever the fuel. *)
Theorem delete_item_twice (fuel : nat) (d : Database) (fs : gmap string Blob)
    (item_id : string) (type : ItemType) (d' : Database) (fs' : gmap string Blob) :
  delete_item fuel (Some d) fs item_id type = Some (Ok status_ok, Some d', fs') →
  ∀ fuel', delete_item fuel' (Some d') fs' item_id type
           = Some (HTTPException 404
                     (match type with
                      | file => "File not found"
                      | folder_type => "Folder not found"
                      end), Some d', fs').
Proof.
  intros (k & Hp & H)%delete_item_Ok_inv fuel'.
  apply delete_item_missing with k; [done|]. destruct type.
  - destruct H as (doc & _ & [= ->] & _). simpl. apply lookup_delete_eq.
  - destruct H as (doc & d1 & _ & [= <-] & Hrec).
    pose proof (delete_folder_recursive_removes _ _ _ _ Hrec) as (_ & _ & Hb & _).
    apply (Hb k k eq_refl). apply rtc_refl.
Qed.

Lemma delete_item_twice_witness :
  delete_item 7 (Some Sample2.after_delete_db) Sample2.after_delete_disk
    "aaaaaaaaaaaaaaaaaaaaaaaa" folder_type
  = Some (HTTPException 404 "Folder not found",
          Some Sample2.after_delete_db, Sample2.after_delete_disk).
Proof.
  apply (delete_item_twice 2 Sample.docs_db Sample.docs_disk
           "aaaaaaaaaaaaaaaaaaaaaaaa" folder_type
           Sample2.after_delete_db Sample2.after_delete_disk).
  vm_compute. reflexivity.
Defined.

(** X14.  Nothing is listed under a deleted folder: after [delete_item]
    answered ok on the folder [k], [list_items] on [k] and on every
    folder that was below it answers no folder and no file. *)
Theorem delete_item_then_list (fuel : nat) (d : Database) (fs : gmap string Blob)
    (item_id : string) (k : ObjectId) (d' : Database) (fs' : gmap string Blob) :
  Bson.parse item_id = Some k →
  delete_item fuel (Some d) fs item_id folder_type
  = Some (Ok status_ok, Some d', fs') →
  ∀ x, in_subtree (folder d) k x → Bson.str x ≠ "" →
       list_items (Some d') (Some (Bson.str x)) = Ok (mkListing [] []).
Proof.
  intros Hp (k' & Hp' & doc & d1 & _ & [= <-] & Hrec)%delete_item_Ok_inv x Hx Hne.
  assert (k' = k) as -> by congruence.
  pose proof (delete_folder_recursive_removes _ _ _ _ Hrec)
    as (Hfo & Hfi & Hb & Hb' & _). simpl in *.
  unfold list_items. apply truthy_true in Hne. simpl. rewrite Hne.
  rewrite !find_parent_nil; [done| |].
  - intros y ydoc Hy Hpar. pose proof (lookup_weaken _ _ _ _ Hy Hfi) as Hy0.
    rewrite (Hb' k y eq_refl) in Hy; [done|].
    exists x. split; [done|]. by exists ydoc.
  - intros c cdoc Hc Hpar. pose proof (lookup_weaken _ _ _ _ Hc Hfo) as Hc0.
    rewrite (Hb k c eq_refl) in Hc; [done|].
    eapply rtc_r; [done|]. by exists cdoc.
Qed.

Lemma delete_item_then_list_witness :
  list_items (Some Sample2.after_delete_db) (Some "bbbbbbbbbbbbbbbbbbbbbbbb")
  = Ok (mkListing [] []).
Proof.
  apply (delete_item_then_list 2 Sample.docs_db Sample.docs_disk
           "aaaaaaaaaaaaaaaaaaaaaaaa" Sample.idA
           Sample2.after_delete_db Sample2.after_delete_disk eq_refl
           ltac:(vm_compute; reflexivity) Sample.idB).
  - apply rtc_once. eexists. split; vm_compute; reflexivity.
  - discriminate.
Defined.

(** X15.  Creating a folder and deleting it puts the store back: after
    [create_folder] answered ok under a generated identifier that no
    stored record names as its parent, [delete_item] on the identifier of
    the answer answers ok with any fuel but none, and leaves the folders,
    the files and the disk as they were before the creation. *)
Theorem create_folder_then_delete (d : Database) (fs : gmap string Blob)
    (now : datetime) (k : ObjectId) (payload : CreateFolderRequest)
    (rec : FolderJson) (db' : option Database) (fuel : nat) :
  canonical k →
  cf_parent_id payload ≠ Some (Bson.str k) →
  (∀ x doc, folder d !! x = Some doc → folder_parent_id doc ≠ Some (Bson.str k)) →
  (∀ y doc, fileitem d !! y = Some doc → file_parent_id doc ≠ Some (Bson.str k)) →
  create_folder (Some d) now k payload = (Ok rec, db') →
  ∃ d'', delete_item (S fuel) db' fs (fj_id rec) folder_type
         = Some (Ok status_ok, Some d'', fs) ∧
         folder d'' = folder d ∧ fileitem d'' = fileitem d ∧
         history d'' = history d ++ [DeletedFolder k].
Proof.
  intros Hk Hpar Hfo Hfi H. unfold create_folder in H. simpl in H.
  destruct (Py.truthy _); simpl in H; [|done]. unfold insert_one in H.
  destruct (folder d !! k) eqn:Hfresh; [done|]. injection H as <- <-.
  unfold delete_item. simpl. rewrite (oid_parse _ _ Hk). simpl.
  rewrite lookup_insert_eq. unfold delete_files_inside. simpl.
  rewrite (find_parent_nil file_parent_id) by done. simpl.
  rewrite (find_parent_nil folder_parent_id).
  - simpl. eexists. split; [done|]. simpl. split; [|done].
    rewrite delete_insert_eq. by apply delete_id.
  - intros x doc [[<- <-]|[_ Hx]]%lookup_insert_Some; simpl; [|by eauto].
    unfold Py.or_None. destruct (Py.truthy_opt _); [done|done].
Qed.

Lemma create_folder_then_delete_witness :
  ∃ d'', delete_item 1
           (create_folder (Some Sample.docs_db) 9%Z Sample.idX
              (mkCreateFolderRequest "New" (Some "aaaaaaaaaaaaaaaaaaaaaaaa"))).2
           Sample.docs_disk "0123456789abcdef01234567" folder_type
         = Some (Ok status_ok, Some d'', Sample.docs_disk) ∧
         folder d'' = folder Sample.docs_db.
Proof.
  destruct (create_folder_then_delete Sample.docs_db Sample.docs_disk 9%Z Sample.idX
              (mkCreateFolderRequest "New" (Some "aaaaaaaaaaaaaaaaaaaaaaaa"))
              (serialize_folder Sample.idX
                 (mkFolder "New" (Some "aaaaaaaaaaaaaaaaaaaaaaaa") 9%Z 9%Z))
              (create_folder (Some Sample.docs_db) 9%Z Sample.idX
                 (mkCreateFolderRequest "New" (Some "aaaaaaaaaaaaaaaaaaaaaaaa"))).2 0)
    as (d'' & H1 & H2 & _).
  - vm_compute. reflexivity.
  - discriminate.
  - intros x doc Hx Hp.
    assert (child (folder Sample.docs_db) Sample.idX x) as Hc by (by exists doc).
    apply docs_db_child in Hc as [Heq _]. discriminate Heq.
  - intros y doc Hy Hp.
    assert (direct_file Sample.docs_db Sample.idX y) as Hc by (by exists doc).
    apply docs_db_direct_file in Hc as [[Heq _]|[[Heq _]|[Heq _]]]; discriminate Heq.
  - vm_compute. reflexivity.
  - exists d''. split; [exact H1|exact H2].
Defined.


(** ** The disk under a deleted folder *)










(** ** Breadcrumbs, again *)





Lemma parent_chain_insert col k new p chain :
  col !! k = None →
  (∀ x doc s, col !! x = Some doc → folder_parent_id doc = Some s →
              Bson.parse s ≠ Some k) →
  parent_chain col p chain → parent_chain (<[k := new]> col) p chain.
Proof.
  intros Hfresh Hno. induction 1 as [x doc Hx Hroot|x doc pid q Hx Hpid Hq Hmiss
                                    |x doc pid q rest Hx Hpid Hq Hrest IH].
  - apply chain_root; [|done]. rewrite lookup_insert_ne; [done|]. congruence.
  - eapply chain_missing; [|done|done|].
    + rewrite lookup_insert_ne; [done|]. congruence.
    + rewrite lookup_insert_ne; [done|]. intros <-. by eapply Hno.
  - eapply chain_up; [|done|done|done].
    rewrite lookup_insert_ne; [done|]. congruence.
Qed.

(** X18.  A folder created inside an existing folder gets that folder's
    breadcrumbs followed by its own: when the parent [p] has the parent
    chain [chain], and no stored folder names the generated identifier as
    its parent, then after [create_folder] answered ok under [p],
    [get_breadcrumbs] on the identifier of the answer gives the crumbs of
    [chain], root first, then the crumb of the new folder with its
    stripped name. *)
Theorem create_folder_then_breadcrumbs (d : Database) (now : datetime)
    (k : ObjectId) (n pid : string) (p : ObjectId)
    (chain : list (ObjectId * Folder)) (rec : FolderJson) (db' : option Database) :
  canonical k →
  Bson.parse pid = Some p →
  parent_chain (folder d) p chain →
  (∀ x doc s, folder d !! x = Some doc → folder_parent_id doc = Some s →
              Bson.parse s ≠ Some k) →
  create_folder (Some d) now k (mkCreateFolderRequest n (Some pid)) = (Ok rec, db') →
  get_breadcrumbs (S (S (length chain))) db' (fj_id rec)
  = Some (Ok (reverse (crumb_of <$> chain)
              ++ [mkCrumb (Bson.str k) (Py.strip n)])).
Proof.
  intros Hk Hp Hchain Hno H.
  pose proof (parse_nonempty _ _ Hp) as Hne%truthy_true.
  assert (Py.or_None (Some pid) = Some pid) as Hor
      by (unfold Py.or_None; simpl; by rewrite Hne).
  unfold create_folder in H. simpl in H. rewrite Hor in H.
  destruct (Py.truthy _); simpl in H; [|done]. unfold insert_one in H.
  destruct (folder d !! k) eqn:Hfresh; [done|]. injection H as <- <-.
  set (new := mkFolder (Py.strip n) (Some pid) now now).
  set (d' := mkDatabase (<[k := new]> (folder d)) (fileitem d) (history d)).
  change (fj_id (serialize_folder k new)) with (Bson.str k).
  change (S (S (length chain))) with (S (length ((k, new) :: chain))).
  rewrite (get_breadcrumbs_chain d' (Bson.str k) k new ((k, new) :: chain)).
  - by rewrite fmap_cons, reverse_cons.
  - split; [done|]. apply lookup_insert_eq.
  - eapply chain_up; [apply lookup_insert_eq|done|done|].
    by apply parent_chain_insert.
Qed.

Lemma create_folder_then_breadcrumbs_witness :
  get_breadcrumbs 5
    (create_folder (Some Sample.three_levels_db) 9%Z Sample.idX
       (mkCreateFolderRequest " D " (Some "cccccccccccccccccccccccc"))).2
    "0123456789abcdef01234567"
  = Some (Ok [mkCrumb "aaaaaaaaaaaaaaaaaaaaaaaa" "A";
              mkCrumb "bbbbbbbbbbbbbbbbbbbbbbbb" "B";
              mkCrumb "cccccccccccccccccccccccc" "C";
              mkCrumb "0123456789abcdef01234567" "D"]).
Proof.
  apply (create_folder_then_breadcrumbs Sample.three_levels_db 9%Z Sample.idX
           " D " "cccccccccccccccccccccccc" Sample.idC
           [(Sample.idC, mkFolder "C" (Some (Bson.str Sample.idB)) 0%Z 0%Z);
            (Sample.idB, mkFolder "B" (Some (Bson.str Sample.idA)) 0%Z 0%Z);
            (Sample.idA, mkFolder "A" None 0%Z 0%Z)]
           (serialize_folder Sample.idX
              (mkFolder "D" (Some "cccccccccccccccccccccccc") 9%Z 9%Z))).
  - vm_compute. reflexivity.
  - vm_compute. reflexivity.
  - eapply chain_up; [vm_compute; reflexivity|reflexivity|vm_compute; reflexivity|].
    eapply chain_up; [vm_compute; reflexivity|reflexivity|vm_compute; reflexivity|].
    apply chain_root; [vm_compute; reflexivity|by left].
  - intros x doc s Hx Hs Hparse. unfold Sample.three_levels_db in Hx. simpl in Hx.
    apply lookup_insert_Some in Hx as [[_ <-]|[_ Hx]]; [discriminate Hs|].
    apply lookup_insert_Some in Hx as [[_ <-]|[_ Hx]].
    { injection Hs as <-. vm_compute in Hparse. discriminate Hparse. }
    apply lookup_singleton_Some in Hx as [_ <-].
    injection Hs as <-. vm_compute in Hparse. discriminate Hparse.
  - vm_compute. reflexivity.
Defined.


(** ** The health check *)

Lemma slice_to_prefix n s : ∃ rest, s = (slice_to n s ++ rest)%string.
Proof.
  revert s. induction n as [|n IH]; intros s; [by exists s|].
  destruct s as [|a s]; [by exists ""|]. destruct (IH s) as [rest Hrest].
  exists rest. change (String a s = String a (slice_to n s ++ rest)%string).
  by rewrite <- Hrest.
Qed.

Lemma slice_to_length n s :
  String.length (slice_to n s) = (n `min` String.length s)%nat.
Proof.
  revert s. induction n as [|n IH]; intros s; [done|].
  destruct s as [|a s]; [done|]. simpl. by rewrite IH.
Qed.

(** X19.  What [test_database] reports.  It says "Connected" exactly when
    a database handle is set; it lists collections only together with
    "Connected & Working", and they are the ones the listing gave; when
    the listing raises, it reports the first 50 characters of the error
    and no more; and [database_url] and [database_name] say only whether
    the two environment variables are set to a non-empty value: the name
    of the database, written first, never reaches the answer. *)
Theorem test_database_report (db : option Database) (db_name : string)
    (listing : string + list string) (getenv : string → option string) :
  let r := test_database db db_name listing getenv in
  backend r = "✅ Running" ∧
  (connection_status r = "Connected" ↔ is_Some db) ∧
  (collections r ≠ [] →
     database r = "✅ Connected & Working" ∧ listing = inr (collections r)) ∧
  (∀ e, is_Some db → listing = inl e →
     ∃ shown rest, database r = ("⚠️ Connected but Error: " ++ shown)%string ∧
                   e = (shown ++ rest)%string ∧
                   String.length shown = (50 `min` String.length e)%nat) ∧
  database_url r
  = Some (if Py.truthy_opt (getenv "DATABASE_URL") then "✅ Set" else "❌ Not Set") ∧
  database_name r
  = Some (if Py.truthy_opt (getenv "DATABASE_NAME") then "✅ Set" else "❌ Not Set").
Proof.
  unfold test_database. destruct db as [d|], listing as [e|names]; simpl.
  - split; [done|]. split; [split; eauto|].
    split; [intros H; by destruct H|]. split; [|done].
    intros e' _ [= <-]. destruct (slice_to_prefix 50 e) as [rest Hrest].
    exists (slice_to 50 e), rest. split; [done|]. split; [done|].
    apply slice_to_length.
  - split; [done|]. split; [split; eauto|]. split; [by intros _|].
    split; [|done]. intros e' _ H. discriminate H.
  - split; [done|]. split; [split; [done|by intros [? ?]]|].
    split; [intros H; by destruct H|]. split; [|done].
    intros e' [? H]. discriminate H.
  - split; [done|]. split; [split; [done|by intros [? ?]]|].
    split; [intros H; by destruct H|]. split; [|done].
    intros e' [? H]. discriminate H.
Qed.

Lemma test_database_report_witness :
  ∃ shown rest,
    database (test_database (Some Sample.empty_db) "drive"
                (inl "connection refused") (λ _, None))
    = ("⚠️ Connected but Error: " ++ shown)%string ∧
    "connection refused" = (shown ++ rest)%string ∧
    String.length shown = (50 `min` String.length "connection refused")%nat.
Proof.
  apply (test_database_report (Some Sample.empty_db) "drive"
           (inl "connection refused") (λ _, None)).
  - by eexists.
  - reflexivity.
Defined.

(** ** The schemas *)

Lemma length_nonempty s : s ≠ "" ↔ (1 ≤ String.length s)%nat.
Proof. destruct s; simpl; split; (done || lia). Qed.

(** X20.  The names the handlers store against the [Folder] schema:
    [create_folder] and [rename_item] guarantee its lower bound on the
    name and not its upper bound.  The folder record either of them
    stores passes the schema exactly when the stripped name has at most
    120 characters. *)
Theorem stored_folder_against_schema (d : Database) (now : datetime) (n : string) :
  (∀ k p rec d' doc,
     create_folder (Some d) now k (mkCreateFolderRequest n p) = (Ok rec, Some d') →
     folder d' !! k = Some doc →
     (1 ≤ String.length (folder_name doc))%nat ∧
     (Schemas.Folder_valid doc = true ↔ (String.length (Py.strip n) ≤ 120)%nat)) ∧
  (∀ id k rec d' doc,
     Bson.parse id = Some k →
     rename_item (Some d) now (mkRenameRequest id folder_type n) = (Ok rec, Some d') →
     folder d' !! k = Some doc →
     (1 ≤ String.length (folder_name doc))%nat ∧
     (Schemas.Folder_valid doc = true ↔ (String.length (Py.strip n) ≤ 120)%nat)).
Proof.
  assert (∀ doc, folder_name doc = Py.strip n → Py.strip n ≠ "" →
            (1 ≤ String.length (folder_name doc))%nat ∧
            (Schemas.Folder_valid doc = true
             ↔ (String.length (Py.strip n) ≤ 120)%nat)) as Hdoc.
  { intros doc Hname Hne%length_nonempty. unfold Schemas.Folder_valid.
    rewrite Hname. split; [done|].
    rewrite andb_true_iff, !Nat.leb_le. tauto. }
  split.
  - intros k p rec d' doc H Hk. unfold create_folder in H. simpl in H.
    destruct (Py.truthy (Py.strip n)) eqn:Hn; simpl in H; [|done].
    unfold insert_one in H. destruct (folder d !! k); [done|].
    injection H as _ <-. simpl in Hk. rewrite lookup_insert_eq in Hk.
    injection Hk as <-. apply Hdoc; [done|]. by apply truthy_true.
  - intros id k rec d' doc Hp H Hk. unfold rename_item in H. simpl in H.
    destruct (Py.truthy (Py.strip n)) eqn:Hn; simpl in H; [|done].
    rewrite (oid_parse _ _ Hp) in H. simpl in H.
    destruct (folder d !! k); [|done].
    injection H as _ <-. simpl in Hk. rewrite lookup_insert_eq in Hk.
    injection Hk as <-. apply Hdoc; [done|]. by apply truthy_true.
Qed.

Lemma stored_folder_against_schema_witness :
  ((1 ≤ String.length (folder_name (mkFolder "Docs" None 5%Z 5%Z)))%nat ∧
   (Schemas.Folder_valid (mkFolder "Docs" None 5%Z 5%Z) = true
    ↔ (String.length (Py.strip " Docs ") ≤ 120)%nat)) ∧
  ((1 ≤ String.length
          (folder_name (mkFolder "Beta" (Some (Bson.str Sample.idA)) 0%Z 9%Z)))%nat ∧
   (Schemas.Folder_valid (mkFolder "Beta" (Some (Bson.str Sample.idA)) 0%Z 9%Z) = true
    ↔ (String.length (Py.strip " Beta ") ≤ 120)%nat)).
Proof.
  split.
  - eapply (proj1 (stored_folder_against_schema Sample.empty_db 5%Z " Docs ")
              Sample.idA None _ _ (mkFolder "Docs" None 5%Z 5%Z)).
    + vm_compute. reflexivity.
    + vm_compute. reflexivity.
  - eapply (proj2 (stored_folder_against_schema Sample.three_levels_db 9%Z " Beta ")
              (Bson.str Sample.idB) Sample.idB _ _
              (mkFolder "Beta" (Some (Bson.str Sample.idA)) 0%Z 9%Z)).
    + vm_compute. reflexivity.
    + vm_compute. reflexivity.
    + vm_compute. reflexivity.
Defined.


